(** * The telemetry gateway of mcp-for-embedded, embedded in Rocq

    Two MCP servers make up the repository:

    - [vehicle_gateway.py] reads CAN frames ([read_sensor_data]), formats
      telemetry ([publish_telemetry]) and dispatches a publish request to a
      platform sink ([publish_sensor_data]);
    - [iot_demo.py] checks parameter completeness ([elicit_parameters]),
      probes an endpoint for protocols ([discover_protocols]) and has its own
      mock [publish_sensor_data].

    Each Python function is translated to a Rocq function of the same name.
    Python exceptions are explicit: a function that can raise returns an
    [outcome].  Network and bus input are arguments of the functions. *)

From Stdlib Require Import String Ascii List ZArith Lia Strings.Byte DecimalString Decimal.
From Stdlib Require Import DecimalPos DecimalN.
From stdpp Require Import base gmap strings list.

Open Scope string_scope.

(** ** Python values, exceptions and string methods *)

Module Py.

(** The exceptions the modelled code can meet. *)
Inductive exn : Type :=
| IndexError          (* sequence index out of range *)
| UnboundLocalError   (* local variable read before assignment *)
| AttributeError      (* attribute looked up on None *)
| ConnectionError     (* requests / socket: host unreachable, refused *)
| Timeout.            (* requests / socket: no answer within the timeout *)

(** What evaluating a Python expression or call ends in. *)
Inductive outcome (A : Type) : Type :=
| Return (a : A)
| Raise (e : exn).
Arguments Return {A} a.
Arguments Raise {A} e.

(** Sequencing: an exception raised by [m] ends the computation. *)
#[global] Instance outcome_bind : MBind outcome := λ A B k m,
  match m with
  | Return a => k a
  | Raise e => Raise e
  end.

#[global] Instance outcome_ret : MRet outcome := λ A a, Return a.

Definition returns {A : Type} (m : outcome A) : bool :=
  match m with
  | Return _ => true
  | Raise _ => false
  end.

(** [seq[i]] for a constant, non-negative index. *)
Definition getitem {A : Type} (seq : list A) (i : nat) : outcome A :=
  match seq !! i with
  | Some x => Return x
  | None => Raise IndexError
  end.

(** [str(n)] and ["{}".format(n)] for a non-negative integer. *)
Definition str_of_int (n : N) : string :=
  NilZero.string_of_uint (N.to_uint n).

(** [f"{x}"] for an [Optional[str]]: the string itself, or [None]. *)
Definition str_of_optional (x : option string) : string :=
  match x with
  | Some s => s
  | None => "None"
  end.

(** The double quote and the single quote, as one-character strings. *)
Definition dquote : string := String "034"%char EmptyString.
Definition squote : string := String "039"%char EmptyString.

(** [sep.join(parts)] *)
Fixpoint join (sep : string) (parts : list string) : string :=
  match parts with
  | [] => EmptyString
  | [p] => p
  | p :: rest => p +:+ sep +:+ join sep rest
  end.

(** [json.dumps(d)] for a dict from plain ASCII keys to integers, with
    the default separators. *)
Definition json_dumps (d : list (string * N)) : string :=
  "{" +:+ join ", " (map (λ kv, dquote +:+ kv.1 +:+ dquote +:+ ": " +:+ str_of_int kv.2) d) +:+ "}".

(** [sub in s] for strings. *)
Fixpoint contains (sub s : string) : bool :=
  String.prefix sub s ||
  match s with
  | EmptyString => false
  | String _ s' => contains sub s'
  end.

(** [s.replace(old, new)]: the occurrences of [old] are found from the
    left and do not overlap.  [skip] counts the characters of the
    occurrence under the cursor that are still to be passed over. *)
Fixpoint replace_from (old new : string) (skip : nat) (s : string) : string :=
  match s with
  | EmptyString => EmptyString
  | String c s' =>
      match skip with
      | S k => replace_from old new k s'
      | O =>
          if String.prefix old s
          then new +:+ replace_from old new (String.length old - 1) s'
          else String c (replace_from old new 0 s')
      end
  end.

(** With an empty [old], Python puts [new] before every character and at
    the end. *)
Fixpoint replace_empty (new s : string) : string :=
  match s with
  | EmptyString => new
  | String c s' => new +:+ String c (replace_empty new s')
  end.

Definition replace (old new s : string) : string :=
  match old with
  | EmptyString => replace_empty new s
  | String _ _ => replace_from old new 0 s
  end.

(** [s.split(sep)] for a one-character separator: never an empty list. *)
Fixpoint split (sep : ascii) (s : string) : list string :=
  match s with
  | EmptyString => [EmptyString]
  | String c s' =>
      if Ascii.eqb c sep then EmptyString :: split sep s'
      else match split sep s' with
           | field :: fields => String c field :: fields
           | [] => [String c EmptyString]
           end
  end.

(** [s.rstrip(ch)] for a one-character argument. *)
Fixpoint rstrip (ch : ascii) (s : string) : string :=
  match s with
  | EmptyString => EmptyString
  | String c s' =>
      match rstrip ch s' with
      | EmptyString => if Ascii.eqb c ch then EmptyString else String c EmptyString
      | r => String c r
      end
  end.

End Py.

Import Py.

(** ** vehicle_gateway.py *)

Module VehicleGateway.

(** A received [can.Message]: the fields the server reads. *)
Record Message : Type := {
  arbitration_id : Z;
  data : list byte;
}.

(** What [can_bus.recv] hands back when a frame with this identifier and
    payload arrived in time. *)
Definition frame (can_id : Z) (payload : list byte) : option Message :=
  Some {| arbitration_id := can_id; data := payload |}.

(** What a tool returns to its caller: a string or a dict of strings. *)
Inductive value : Type :=
| Str (s : string)
| Dict (items : list (string * string)).

(** [read_sensor_data]; [msg] is what [can_bus.recv] handed back, [None]
    when the timeout passed with no frame. *)
Definition read_sensor_data (msg : option Message) : outcome value :=
  match msg with
  | None => Return (Dict [("status", "timeout")])
  | Some msg =>
      let can_id := arbitration_id msg in
      if (can_id =? 0x101)%Z then
        b0 ← getitem (data msg) 0;
        Return (Str ("Speed is " +:+ str_of_int (Byte.to_N b0)))
      else if (can_id =? 0x102)%Z then
        b0 ← getitem (data msg) 0;
        Return (Str ("RPM is " +:+ str_of_int (Byte.to_N b0)))
      else if (can_id =? 0x103)%Z then
        b0 ← getitem (data msg) 0;
        Return (Str ("Fuel level is " +:+ str_of_int (Byte.to_N b0)))
      else if (can_id =? 0x100)%Z then
        b0 ← getitem (data msg) 0;
        b1 ← getitem (data msg) 1;
        b2 ← getitem (data msg) 2;
        let reading := [("speed", Byte.to_N b0); ("rpm", Byte.to_N b1); ("fuel", Byte.to_N b2)] in
        Return (Str (json_dumps reading))
      else
        Return (Str "Invalid CAN Frame")
  end.

Record Config : Type := {
  mqtt_broker : option string;
  mqtt_topic : option string;
  http_rest_end_point : option string;
  cfg_api_key : option string;
}.

(** [publish_telemetry].  The local [resp] starts unbound ([None] here) and
    is bound by the branches that assign it; [return resp] raises when it
    is still unbound. *)
Definition publish_telemetry (protocol platform telemetry_data : string) (cfg : Config)
  : outcome string :=
  let resp : option string := None in
  let resp :=
    if String.eqb protocol "mqtt" then
      if String.eqb platform "thingspeak" then
        Some ("Sending " +:+ telemetry_data +:+ " to thingspeak using mqtt")
      else if String.eqb platform "thingsboard" then
        Some ("Sending " +:+ telemetry_data +:+ " to thingsboard using mqtt")
      else
        Some ("Sending " +:+ telemetry_data +:+ " to custom mqtt broker ")
    else resp in
  let resp :=
    if String.eqb protocol "http" then
      if String.eqb platform "thingspeak" then
        Some ("Sending " +:+ telemetry_data +:+ " to thingspeak using http")
      else if String.eqb platform "thingsboard" then
        Some ("Sending " +:+ telemetry_data +:+ " to thingspeak using http")
      else
        Some ("Sending " +:+ telemetry_data +:+ " to thingspeak using http")
    else resp in
  match resp with
  | Some r => Return r
  | None => Raise UnboundLocalError
  end.

(** The values of [Literal[...]] in [IoTRequest.platform]. *)
Definition platform_literals : list string :=
  ["thingsboard"; "thingspeak"; "custom_rest"; "custom_mqtt"].

Section Publish.

(** Python floats are not modelled: the sensor values are of an
    arbitrary type [float], and [repr] of a float and of a string are
    arbitrary functions. *)
Context {float : Type}.
Variable repr_float : float → string.
Variable repr_str : string → string.

Record SensorData : Type := {
  speed : option float;
  rpm : option float;
  fuel : option float;
  latitude : option float;
  longitude : option float;
  timestamp : option string;
}.

Record IoTRequest : Type := {
  platform : string;
  target : string;
  api_key : option string;
  sensor_data : SensorData;
}.

(** [sensor_data.dict(exclude_none=True)]: the fields that are set, in
    declaration order, each with the [repr] of its value. *)
Definition dict_exclude_none (sd : SensorData) : list (string * string) :=
  omap (λ kv : string * option string, (λ v, (kv.1, v)) <$> kv.2)
    [("speed", repr_float <$> speed sd);
     ("rpm", repr_float <$> rpm sd);
     ("fuel", repr_float <$> fuel sd);
     ("latitude", repr_float <$> latitude sd);
     ("longitude", repr_float <$> longitude sd);
     ("timestamp", repr_str <$> timestamp sd)].

(** [f"{data}"]: the [repr] of a dict with identifier keys. *)
Definition str_of_dict (d : list (string * string)) : string :=
  "{" +:+ join ", " (map (λ kv, squote +:+ kv.1 +:+ squote +:+ ": " +:+ kv.2) d) +:+ "}".

Definition send_to_thingsboard (endpoint : string) (token : option string)
    (data : list (string * string)) : string :=
  "[Mock] Sent to ThingsBoard at " +:+ endpoint +:+ " with token="
    +:+ str_of_optional token +:+ ": " +:+ str_of_dict data.

Definition send_to_thingspeak (channel_id : string) (api_key : option string)
    (data : list (string * string)) : string :=
  "[Mock] Sent to ThingSpeak channel " +:+ channel_id +:+ " with key="
    +:+ str_of_optional api_key +:+ ": " +:+ str_of_dict data.

Definition send_to_rest (url : string) (api_key : option string)
    (data : list (string * string)) : string :=
  "[Mock] Sent REST POST to " +:+ url +:+ " api_key="
    +:+ str_of_optional api_key +:+ ": " +:+ str_of_dict data.

Definition send_to_mqtt (broker : string) (data : list (string * string)) : string :=
  "[Mock] Published MQTT to " +:+ broker +:+ ": " +:+ str_of_dict data.

(** [publish_sensor_data]: dispatch on the platform string. *)
Definition publish_sensor_data (request : IoTRequest) : string :=
  let data := dict_exclude_none (sensor_data request) in
  if String.eqb (platform request) "thingsboard" then
    send_to_thingsboard (target request) (api_key request) data
  else if String.eqb (platform request) "thingspeak" then
    send_to_thingspeak (target request) (api_key request) data
  else if String.eqb (platform request) "custom_rest" then
    send_to_rest (target request) (api_key request) data
  else if String.eqb (platform request) "custom_mqtt" then
    send_to_mqtt (target request) data
  else
    "Unsupported platform".

End Publish.

End VehicleGateway.

(** ** iot_demo.py *)

Module IotDemo.

(** *** Elicitation *)

Record Elicitation : Type := {
  task : string;
  missing_parameters : list string;
  complete : bool;
}.

(** [key not in params] *)
Definition not_in {V : Type} (key : string) (params : gmap string V) : bool :=
  bool_decide (params !! key = None).

(** [elicit_parameters]; [missing.append] is threaded through the three
    tests. *)
Definition elicit_parameters {V : Type} (task : string) (params : gmap string V)
  : Elicitation :=
  let missing : list string := [] in
  let missing :=
    if String.eqb task "publish_sensor_data" then
      let missing :=
        if not_in "platform" params
        then (missing ++ ["Which IoT platform should be used?"])%list else missing in
      let missing :=
        if not_in "target" params
        then (missing ++ ["Provide the endpoint/broker/channel ID."])%list else missing in
      let missing :=
        if not_in "sensor_data" params
        then (missing ++ ["Provide sensor_data (temperature, humidity, etc.)"])%list else missing in
      missing
    else missing in
  {| task := task;
     missing_parameters := missing;
     complete := Nat.eqb (length missing) 0 |}.

(** *** Protocol discovery *)

Record Response : Type := { status_code : Z }.

(** The network as one call of [discover_protocols] meets it: what each
    request or connection attempt ends in.  A refused connection, an
    unreachable host and a timeout are all exceptions. *)
Record Net : Type := {
  requests_options : string → outcome Response;
  requests_get : string → outcome Response;
  socket_create_connection : string → Z → outcome unit;
}.

Record Discovery : Type := {
  endpoint : string;
  protocols : list string;
}.

(** [try: body except: pass], where [body] ends by giving the new value
    of [supported]: an exception leaves the list as it was. *)
Definition try_pass (supported : list string) (body : outcome (list string))
  : list string :=
  match body with
  | Return supported' => supported'
  | Raise _ => supported
  end.

(** The inner function [port_open]; closing the socket is taken to
    succeed. *)
Definition port_open (net : Net) (host : string) (port : Z) : bool :=
  match socket_create_connection net host port with
  | Return _ => true
  | Raise _ => false
  end.

Definition description_paths : list string :=
  ["/swagger.json"; "/openapi.json"; "/api"; "/api/docs"].

(** The expression that computes [hostname]. *)
Definition hostname (endpoint : string) : outcome string :=
  getitem (split "/" (replace "https://" "" (replace "http://" "" endpoint))) 0.

(** [discover_protocols].  [list(set(supported))] is the list of the
    elements of the set; Python fixes no order for it. *)
Definition discover_protocols (net : Net) (endpoint : string) : outcome Discovery :=
  let supported : list string := [] in
  let supported :=
    try_pass supported
      (_ ← requests_options net endpoint;
       Return (supported ++ ["http-rest"])%list) in
  let supported :=
    foldl (λ supported path,
             try_pass supported
               (r ← requests_get net (rstrip "/" endpoint +:+ path);
                Return (if (status_code r =? 200)%Z
                        then (supported ++ ["openapi-rest"])%list else supported)))
      supported description_paths in
  hostname ← hostname endpoint;
  let supported :=
    if port_open net hostname 1883 then (supported ++ ["mqtt"])%list else supported in
  let supported :=
    if port_open net hostname 8883 then (supported ++ ["mqtts"])%list else supported in
  let supported :=
    if port_open net hostname 5683 then (supported ++ ["coap"])%list else supported in
  Return {| endpoint := endpoint;
            protocols := elements (list_to_set supported : gset string) |}.

(** *** Publishing *)

Section Publish.

(** Python floats are not modelled: the sensor values are of an
    arbitrary type. *)
Context {float : Type}.

Record SensorData : Type := {
  temperature : option float;
  humidity : option float;
  pressure : option float;
  latitude : option float;
  longitude : option float;
  timestamp : option string;
}.

(** The function tests its request's attributes against [None], so each
    attribute it tests is optional here. *)
Record IoTRequest : Type := {
  platform : option string;
  target : option string;
  api_key : option string;
  sensor_data : option SensorData;
}.

(** The dict the tool returns, by its [status]. *)
Inductive Published : Type :=
| needs_elicitation (missing_parameters : list string)
| success (message : string) (data : SensorData).

(** [getattr(request, p) is None] *)
Definition attr_is_none (request : IoTRequest) (p : string) : bool :=
  if String.eqb p "platform" then bool_decide (platform request = None)
  else if String.eqb p "target" then bool_decide (target request = None)
  else if String.eqb p "api_key" then bool_decide (api_key request = None)
  else if String.eqb p "sensor_data" then
    match sensor_data request with None => true | Some _ => false end
  else false.

Definition required : list string := ["platform"; "target"; "sensor_data"].

(** [publish_sensor_data].  [request.sensor_data.dict()] keeps every
    field, so the record itself stands for it. *)
Definition publish_sensor_data (request : IoTRequest) : outcome Published :=
  let missing := filter (λ p, attr_is_none request p = true) required in
  match missing with
  | _ :: _ => Return (needs_elicitation missing)
  | [] =>
      match sensor_data request with
      | Some sd =>
          Return (success ("Published to " +:+ str_of_optional (platform request)) sd)
      | None => Raise AttributeError
      end
  end.

End Publish.

End IotDemo.

(** ** The spec's words

    Definitions that follow the specification, to be compared with the
    functions translated from the code. *)

Module Spec.

(** The names of the absent fields of a publish request, among platform,
    target and payload ([sensor_data]), in that order. *)
Definition absent {float : Type} (request : IotDemo.IoTRequest (float := float))
  : list string :=
  ((if IotDemo.platform request is None then ["platform"] else [])
   ++ (if IotDemo.target request is None then ["target"] else [])
   ++ (if IotDemo.sensor_data request is None then ["sensor_data"] else []))%list.

(** The protocol tags of a discovery result. *)
Definition protocol_tags : list string :=
  ["http-rest"; "openapi-rest"; "mqtt"; "mqtts"; "coap"].

(** [s] without the leading [p], when it starts with [p]. *)
Fixpoint strip_prefix (p s : string) : option string :=
  match p, s with
  | EmptyString, _ => Some s
  | String a p', String b s' => if Ascii.eqb a b then strip_prefix p' s' else None
  | String _ _, EmptyString => None
  end.

(** The address with a leading [http://] or [https://] stripped. *)
Definition strip_scheme (address : string) : string :=
  match strip_prefix "http://" address with
  | Some rest => rest
  | None =>
      match strip_prefix "https://" address with
      | Some rest => rest
      | None => address
      end
  end.

(** The address with everything from the first [/] onward removed. *)
Fixpoint strip_path (address : string) : string :=
  match address with
  | EmptyString => EmptyString
  | String c rest => if Ascii.eqb c "/" then EmptyString else String c (strip_path rest)
  end.

(** The hostname the spec asks for: leading scheme stripped, then the
    path suffix removed. *)
Definition hostname_spec (address : string) : string :=
  strip_path (strip_scheme address).

(** A description path under [base] answers, with status 200. *)
Definition described (net : IotDemo.Net) (base path : string) : Prop :=
  ∃ r, IotDemo.requests_get net (base +:+ path) = Return r
       ∧ IotDemo.status_code r = 200%Z.

(** Every request and every connection attempt fails. *)
Definition unreachable (net : IotDemo.Net) : Prop :=
  (∀ url, returns (IotDemo.requests_options net url) = false)
  ∧ (∀ url, returns (IotDemo.requests_get net url) = false)
  ∧ (∀ host port, returns (IotDemo.socket_create_connection net host port) = false).

End Spec.

Import Spec.

(** ** Sample inputs *)

Module Samples.

(** Sensor values as whole numbers, printed the way Python prints such a
    float. *)
Definition repr_whole (n : N) : string := str_of_int n +:+ ".0".

Definition climate : IotDemo.SensorData (float := N) :=
  {| IotDemo.temperature := Some 21%N; IotDemo.humidity := Some 40%N;
     IotDemo.pressure := None; IotDemo.latitude := None;
     IotDemo.longitude := None; IotDemo.timestamp := None |}.

Definition demo_request (platform target : option string)
  : IotDemo.IoTRequest (float := N) :=
  {| IotDemo.platform := platform; IotDemo.target := target;
     IotDemo.api_key := None; IotDemo.sensor_data := Some climate |}.

Definition drive : VehicleGateway.SensorData (float := N) :=
  {| VehicleGateway.speed := Some 10%N; VehicleGateway.rpm := Some 20%N;
     VehicleGateway.fuel := Some 5%N; VehicleGateway.latitude := None;
     VehicleGateway.longitude := None; VehicleGateway.timestamp := None |}.

Definition gateway_request (platform target : string)
  : VehicleGateway.IoTRequest (float := N) :=
  {| VehicleGateway.platform := platform; VehicleGateway.target := target;
     VehicleGateway.api_key := Some "tok"; VehicleGateway.sensor_data := drive |}.

(** A host that answers nothing: every request times out, every
    connection is refused. *)
Definition dead_net : IotDemo.Net :=
  {| IotDemo.requests_options := λ _, Raise Timeout;
     IotDemo.requests_get := λ _, Raise Timeout;
     IotDemo.socket_create_connection := λ _ _, Raise ConnectionError |}.

(** A host that answers 200 to every GET, 405 to OPTIONS, and listens on
    the MQTT port only. *)
Definition broker_net : IotDemo.Net :=
  {| IotDemo.requests_options := λ _, Return {| IotDemo.status_code := 405 |};
     IotDemo.requests_get := λ _, Return {| IotDemo.status_code := 200 |};
     IotDemo.socket_create_connection := λ _ port,
       if (port =? 1883)%Z then Return () else Raise ConnectionError |}.

End Samples.

(** ** iot_demo.py: the sample buffer and the text tools *)

Module Sampling.

(** The exceptions the sampling tools can meet. *)
Inductive error : Type :=
| KeyError (key : string)   (* a dict has no such key *)
| TypeError                 (* arithmetic on a value that is no number *)
| ZeroDivisionError.        (* division by zero *)

Inductive attempt (A : Type) : Type :=
| Ok (a : A)
| Err (e : error).
Arguments Ok {A} a.
Arguments Err {A} e.

#[global] Instance attempt_bind : MBind attempt := λ A B k m,
  match m with
  | Ok a => k a
  | Err e => Err e
  end.

(** The line feed. *)
Definition newline : string := String "010"%char EmptyString.

Section Sampling.

(** Python floats are not modelled: they are of an arbitrary type, with
    the operations the tools use on them. *)
Context {float : Type}.
Variable sum_floats : list float → float.  (* sum(...) of floats, not none *)
Variable div_len : float → nat → float.    (* float / len(...) *)
Variable lt : float → float → bool.        (* float < float *)
Variable truthy : float → bool.            (* bool(float) *)
Variable gt_int : float → Z → bool.        (* float > int *)
Variable repr_float : float → string.

(** What a sample dict holds under a key. *)
Inductive value : Type :=
| Num (x : float)
| Text (s : string).

(** [d[key]] *)
Definition subscript (d : gmap string value) (key : string) : attempt value :=
  match d !! key with
  | Some v => Ok v
  | None => Err (KeyError key)
  end.

(** [f"{v}"] *)
Definition format (v : value) : string :=
  match v with
  | Num x => repr_float x
  | Text s => s
  end.

(** A value as an operand of [+], [<] or [/]. *)
Definition number (v : value) : attempt float :=
  match v with
  | Num x => Ok x
  | Text _ => Err TypeError
  end.

(** The dict [sample_sensor_data] returns. *)
Record Recorded : Type := {
  status : string;
  data : gmap string value;
}.

(** [sample_sensor_data]: the state is [SAMPLE_BUFFER]; [now] is what
    [datetime.datetime.now().isoformat()] gives at the call. *)
Definition sample_sensor_data (temperature humidity : float) (now : string)
    (SAMPLE_BUFFER : list (gmap string value))
  : Recorded * list (gmap string value) :=
  let entry : gmap string value :=
    {[ "temperature" := Num temperature;
       "humidity" := Num humidity;
       "timestamp" := Text now ]} in
  ({| status := "sample_recorded"; data := entry |}, (SAMPLE_BUFFER ++ [entry])%list).

Definition get_samples (SAMPLE_BUFFER : list (gmap string value))
  : list (gmap string value) :=
  SAMPLE_BUFFER.

Definition clear_samples (SAMPLE_BUFFER : list (gmap string value))
  : string * list (gmap string value) :=
  ("Sample buffer cleared.", []).

(** The dict [summarize_samples] returns. *)
Inductive Summary : Type :=
| no_samples    (* the dict with the error [No samples available] *)
| statistics (count : nat)
    (avg_temperature avg_humidity min_temperature max_temperature : float).

(** [[s[key] for s in samples]] *)
Fixpoint column (key : string) (samples : list (gmap string value))
  : attempt (list value) :=
  match samples with
  | [] => Ok []
  | s :: rest =>
      v ← subscript s key;
      vs ← column key rest;
      Ok (v :: vs)
  end.

(** The values as operands, up to the first that is no number. *)
Fixpoint numbers (vs : list value) : attempt (list float) :=
  match vs with
  | [] => Ok []
  | v :: rest =>
      x ← number v;
      xs ← numbers rest;
      Ok (x :: xs)
  end.

(** [sum(first :: rest)] *)
Definition sum_from (first : value) (rest : list value) : attempt float :=
  xs ← numbers (first :: rest);
  Ok (sum_floats xs).

(** [min(first :: rest)]: a later value replaces the least so far when it
    is less. *)
Definition min_from (first : value) (rest : list value) : attempt float :=
  x ← number first;
  foldl (λ least v, m ← least; y ← number v; Ok (if lt y m then y else m)) (Ok x) rest.

(** [max(first :: rest)]: a later value replaces the greatest so far when
    it is greater. *)
Definition max_from (first : value) (rest : list value) : attempt float :=
  x ← number first;
  foldl (λ most v, m ← most; y ← number v; Ok (if lt m y then y else m)) (Ok x) rest.

(** [summarize_samples].  The sum of no value is the integer 0, and
    dividing it by the length 0 raises. *)
Definition summarize_samples (SAMPLE_BUFFER : list (gmap string value))
  : attempt Summary :=
  match SAMPLE_BUFFER with
  | [] => Ok no_samples
  | _ :: _ =>
      temps ← column "temperature" SAMPLE_BUFFER;
      hums ← column "humidity" SAMPLE_BUFFER;
      match temps, hums with
      | t :: ts, h :: hs =>
          sum_t ← sum_from t ts;
          sum_h ← sum_from h hs;
          min_t ← min_from t ts;
          max_t ← max_from t ts;
          Ok (statistics (length SAMPLE_BUFFER)
                (div_len sum_t (length temps)) (div_len sum_h (length hums))
                min_t max_t)
      | _, _ => Err ZeroDivisionError
      end
  end.

(** One line of [explain_sampling]. *)
Definition sample_line (s : gmap string value) : attempt string :=
  ts ← subscript s "timestamp";
  t ← subscript s "temperature";
  h ← subscript s "humidity";
  Ok (format ts +:+ ": T=" +:+ format t +:+ " H=" +:+ format h).

Fixpoint sample_lines (samples : list (gmap string value)) : attempt (list string) :=
  match samples with
  | [] => Ok []
  | s :: rest =>
      line ← sample_line s;
      lines ← sample_lines rest;
      Ok (line :: lines)
  end.

(** [explain_sampling] *)
Definition explain_sampling (samples : list (gmap string value)) : attempt string :=
  lines ← sample_lines samples;
  Ok ("Explain the following sampled data:" +:+ newline +:+ join newline lines).

(** [x and x > n] as a condition: [x] is set, is true as a condition, and
    is greater than [n]. *)
Definition and_greater (x : option float) (n : Z) : bool :=
  match x with
  | Some x => truthy x && gt_int x n
  | None => false
  end.

(** [analyze_sensor_data] *)
Definition analyze_sensor_data (sensor : IotDemo.SensorData (float := float)) : string :=
  let issues : list string := [] in
  let issues :=
    if and_greater (IotDemo.temperature sensor) 35
    then (issues ++ ["High temperature"])%list else issues in
  let issues :=
    if and_greater (IotDemo.humidity sensor) 80
    then (issues ++ ["High humidity"])%list else issues in
  match issues with
  | [] => "Sensor values are normal."
  | _ :: _ => "Issues detected: " +:+ join ", " issues
  end.

(** A call of one of the tools that write the buffer. *)
Inductive call : Type :=
| Sample (temperature humidity : float) (now : string)
| Clear.

(** The buffer after a call, and after a sequence of calls. *)
Definition after (SAMPLE_BUFFER : list (gmap string value)) (c : call)
  : list (gmap string value) :=
  match c with
  | Sample temperature humidity now =>
      (sample_sensor_data temperature humidity now SAMPLE_BUFFER).2
  | Clear => (clear_samples SAMPLE_BUFFER).2
  end.

Definition session (calls : list call) : list (gmap string value) :=
  foldl after [] calls.

(** A dict with the three keys of a sample. *)
Definition keyed (s : gmap string value) : Prop :=
  is_Some (s !! "timestamp") ∧ is_Some (s !! "temperature") ∧ is_Some (s !! "humidity").

(** A dict with the three keys, two numbers and a text under them, as
    [sample_sensor_data] makes it. *)
Definition recorded (s : gmap string value) : Prop :=
  ∃ temperature humidity now,
    s !! "temperature" = Some (Num temperature)
    ∧ s !! "humidity" = Some (Num humidity)
    ∧ s !! "timestamp" = Some (Text now).

End Sampling.

End Sampling.

(** ** iot_demo.py: [explain_sampling] on any list *)

Module Untyped.

Import Sampling.

Section Untyped.

Context {float : Type}.
Variable repr_float : float → string.

(** An element of the list [explain_sampling] is handed: its parameter is
    a bare [list], so an element is a dict or something else (a number, a
    string, a list, [None]), and subscripting something else with a key
    raises [TypeError]. *)
Inductive element : Type :=
| Mapping (d : gmap string (value (float := float)))
| NoDict.

(** One line of [explain_sampling]. *)
Definition element_line (x : element) : attempt string :=
  match x with
  | Mapping d => sample_line repr_float d
  | NoDict => Err TypeError
  end.

Fixpoint element_lines (samples : list element) : attempt (list string) :=
  match samples with
  | [] => Ok []
  | x :: rest =>
      line ← element_line x;
      lines ← element_lines rest;
      Ok (line :: lines)
  end.

(** [explain_sampling] *)
Definition explain_sampling (samples : list element) : attempt string :=
  lines ← element_lines samples;
  Ok ("Explain the following sampled data:" +:+ newline +:+ join newline lines).

End Untyped.

End Untyped.

(** ** The request models, as a call builds them

    Both servers declare [publish_sensor_data(request: IoTRequest)], and
    [IoTRequest] is a pydantic model: the request is built from the
    arguments of the call before the function runs, and a field declared
    without [Optional] and without a default must be there. *)

Module Validation.

(** What building a model ends in: the model, or a validation error that
    names the fields at fault. *)
Inductive validated (A : Type) : Type :=
| Valid (model : A)
| ValidationError (fields : list string).
Arguments Valid {A} model.
Arguments ValidationError {A} fields.

(** The arguments of a publish call as they arrive: each may be missing
    (or null). *)
Record Arguments (S : Type) : Type := {
  platform : option string;
  target : option string;
  api_key : option string;
  sensor_data : option S;
}.
Arguments platform {S} _.
Arguments target {S} _.
Arguments api_key {S} _.
Arguments sensor_data {S} _.

(** The required fields that are missing, in the order of declaration. *)
Definition missing {S : Type} (a : Arguments S) : list string :=
  ((if platform a is None then ["platform"] else [])
   ++ (if target a is None then ["target"] else [])
   ++ (if sensor_data a is None then ["sensor_data"] else []))%list.

Section Validation.

Context {float : Type}.
Variable repr_float : float → string.
Variable repr_str : string → string.

(** [IoTRequest] of iot_demo.py: [platform: str], [target: str],
    [api_key: Optional[str]], [sensor_data: SensorData]. *)
Definition iot_demo_request (a : Arguments (IotDemo.SensorData (float := float)))
  : validated (IotDemo.IoTRequest (float := float)) :=
  match platform a, target a, sensor_data a with
  | Some p, Some t, Some sd =>
      Valid {| IotDemo.platform := Some p; IotDemo.target := Some t;
               IotDemo.api_key := api_key a; IotDemo.sensor_data := Some sd |}
  | _, _, _ => ValidationError (missing a)
  end.

(** [IoTRequest] of vehicle_gateway.py: as above, and [platform] is a
    [Literal] of four names. *)
Definition vehicle_gateway_request
    (a : Arguments (VehicleGateway.SensorData (float := float)))
  : validated (VehicleGateway.IoTRequest (float := float)) :=
  match platform a, target a, sensor_data a with
  | Some p, Some t, Some sd =>
      if bool_decide (p ∈ VehicleGateway.platform_literals)
      then Valid {| VehicleGateway.platform := p; VehicleGateway.target := t;
                    VehicleGateway.api_key := api_key a;
                    VehicleGateway.sensor_data := sd |}
      else ValidationError ["platform"]
  | Some p, _, _ =>
      if bool_decide (p ∈ VehicleGateway.platform_literals)
      then ValidationError (missing a)
      else ValidationError ("platform" :: missing a)
  | None, _, _ => ValidationError (missing a)
  end.

(** A call of [iot_demo]'s tool [publish_sensor_data]: the function runs
    on the request once it is built. *)
Definition iot_demo_publish (a : Arguments (IotDemo.SensorData (float := float)))
  : validated (outcome (IotDemo.Published (float := float))) :=
  match iot_demo_request a with
  | Valid request => Valid (IotDemo.publish_sensor_data request)
  | ValidationError fields => ValidationError fields
  end.

(** A call of [vehicle_gateway]'s tool [publish_sensor_data]. *)
Definition vehicle_gateway_publish
    (a : Arguments (VehicleGateway.SensorData (float := float)))
  : validated string :=
  match vehicle_gateway_request a with
  | Valid request =>
      Valid (VehicleGateway.publish_sensor_data repr_float repr_str request)
  | ValidationError fields => ValidationError fields
  end.

End Validation.

End Validation.

(** ** Sample calls *)

Module Calls.

(** A publish call to [iot_demo] that names no target. *)
Definition no_target : Validation.Arguments (IotDemo.SensorData (float := N)) :=
  {| Validation.platform := Some "thingsboard"; Validation.target := None;
     Validation.api_key := None; Validation.sensor_data := Some Samples.climate |}.

(** The same call to [vehicle_gateway]. *)
Definition gateway_no_target
  : Validation.Arguments (VehicleGateway.SensorData (float := N)) :=
  {| Validation.platform := Some "thingsboard"; Validation.target := None;
     Validation.api_key := None; Validation.sensor_data := Some Samples.drive |}.

End Calls.

(** ** Sample sessions *)

Module Sessions.

(** Whole numbers for floats: their sum, quotient by a length, order,
    truth value and comparison with an integer. *)
Definition sum_whole (xs : list N) : N := foldr N.add 0%N xs.
Definition div_whole (x : N) (n : nat) : N := (x / N.of_nat n)%N.
Definition truthy_whole (x : N) : bool := negb (x =? 0)%N.
Definition gt_whole (x : N) (n : Z) : bool := (n <? Z.of_N x)%Z.

(** Three samples after a clear. *)
Definition morning : list (Sampling.call (float := N)) :=
  [Sampling.Sample 30%N 70%N "2024-05-01T06:00:00";
   Sampling.Clear;
   Sampling.Sample 21%N 40%N "2024-05-01T08:00:00";
   Sampling.Sample 25%N 45%N "2024-05-01T09:00:00";
   Sampling.Sample 19%N 50%N "2024-05-01T10:00:00"].

End Sessions.

(** ** Characters of printed numbers *)

Module Text.

(** A decimal digit. *)
Definition is_digit (c : ascii) : bool :=
  (48 <=? nat_of_ascii c)%nat && (nat_of_ascii c <=? 57)%nat.

(** A string of decimal digits. *)
Fixpoint all_digits (s : string) : bool :=
  match s with
  | EmptyString => true
  | String c s' => is_digit c && all_digits s'
  end.

End Text.

Import Text.

(** ** Frame decoding ([vehicle_gateway.read_sensor_data]) *)

Section Decode.
Import VehicleGateway.

Lemma getitem_lookup {A : Type} (seq : list A) (i : nat) (x : A) :
  seq !! i = Some x → getitem seq i = Return x.
Proof. intros H. unfold getitem. now rewrite H. Qed.

(** No frame within the timeout is a normal answer, not an exception. *)
Example read_timeout :
  read_sensor_data None = Return (Dict [("status", "timeout")]).
Proof. reflexivity. Qed.

(** The text of a composite reading, character by character. *)
Example json_dumps_reading :
  json_dumps [("speed", 10%N); ("rpm", 20%N); ("fuel", 5%N)]
  = "{" +:+ dquote +:+ "speed" +:+ dquote +:+ ": 10, "
        +:+ dquote +:+ "rpm" +:+ dquote +:+ ": 20, "
        +:+ dquote +:+ "fuel" +:+ dquote +:+ ": 5}".
Proof. reflexivity. Qed.

(** C1, as the claim states it, fails on a frame with no payload byte:
    identifier 0x101 with an empty payload does not yield a speed value,
    the read of byte 0 raises [IndexError]. *)
Lemma decode_single_empty_payload_raises :
  read_sensor_data (frame 0x101 []) = Raise IndexError
  ∧ ¬ ∃ v, read_sensor_data (frame 0x101 []) = Return v.
Proof.
  split; [reflexivity | intros [v Hv]; discriminate Hv].
Qed.

(** C1 (amended): decode dispatches on the identifier.  Identifier 0x101,
    0x102 or 0x103 with a payload byte 0 yields the single field speed, rpm
    or fuel with the value of byte 0; identifier 0x100 with payload bytes
    0, 1 and 2 yields the composite reading speed = byte 0, rpm = byte 1,
    fuel = byte 2 and nothing else (bytes 10, 20, 5 give speed 10, rpm 20,
    fuel 5); every other identifier yields the unrecognized-frame answer. *)
Theorem decode_dispatch (can_id : Z) (payload : list byte) :
  (∀ b0, payload !! 0 = Some b0 →
     read_sensor_data (frame 0x101 payload)
       = Return (Str ("Speed is " +:+ str_of_int (Byte.to_N b0)))
     ∧ read_sensor_data (frame 0x102 payload)
       = Return (Str ("RPM is " +:+ str_of_int (Byte.to_N b0)))
     ∧ read_sensor_data (frame 0x103 payload)
       = Return (Str ("Fuel level is " +:+ str_of_int (Byte.to_N b0))))
  ∧ (∀ b0 b1 b2,
       payload !! 0 = Some b0 → payload !! 1 = Some b1 → payload !! 2 = Some b2 →
       read_sensor_data (frame 0x100 payload)
       = Return (Str (json_dumps [("speed", Byte.to_N b0);
                                  ("rpm", Byte.to_N b1);
                                  ("fuel", Byte.to_N b2)])))
  ∧ read_sensor_data (frame 0x100 [x0a; x14; x05])
    = Return (Str (json_dumps [("speed", 10%N); ("rpm", 20%N); ("fuel", 5%N)]))
  ∧ (can_id ≠ 0x100%Z → can_id ≠ 0x101%Z → can_id ≠ 0x102%Z → can_id ≠ 0x103%Z →
     read_sensor_data (frame can_id payload) = Return (Str "Invalid CAN Frame")).
Proof.
  repeat split.
  - unfold read_sensor_data, frame; simpl. now rewrite (getitem_lookup _ _ _ H).
  - unfold read_sensor_data, frame; simpl. now rewrite (getitem_lookup _ _ _ H).
  - unfold read_sensor_data, frame; simpl. now rewrite (getitem_lookup _ _ _ H).
  - intros b0 b1 b2 H0 H1 H2. unfold read_sensor_data, frame; simpl.
    now rewrite (getitem_lookup _ _ _ H0), (getitem_lookup _ _ _ H1),
      (getitem_lookup _ _ _ H2).
  - intros H100 H101 H102 H103. unfold read_sensor_data, frame; simpl.
    apply Z.eqb_neq in H100, H101, H102, H103.
    now rewrite H101, H102, H103, H100.
Qed.

Lemma decode_dispatch_witness :
  read_sensor_data (frame 0x101 [x2a])
    = Return (Str "Speed is 42")
  ∧ read_sensor_data (frame 0x100 [x0a; x14; x05; xff])
    = Return (Str (json_dumps [("speed", 10%N); ("rpm", 20%N); ("fuel", 5%N)]))
  ∧ read_sensor_data (frame 0x7ff [x01]) = Return (Str "Invalid CAN Frame").
Proof.
  split; [| split].
  - exact (proj1 (proj1 (decode_dispatch 0 [x2a]) x2a eq_refl)).
  - exact (proj1 (proj2 (decode_dispatch 0 [x0a; x14; x05; xff]))
             x0a x14 x05 eq_refl eq_refl eq_refl).
  - apply (proj2 (proj2 (proj2 (decode_dispatch 0x7ff [x01])))); lia.
Defined.

(** C2, as the claim states it, fails: on a composite frame of two bytes
    the code checks no length and knows no malformed-frame error; what
    ends the decoding is the read of byte 2, past the end of the payload,
    which Python traps and answers with [IndexError]. *)
Lemma decode_short_payload_index_error :
  [x0a; x14] !! 2 = None
  ∧ getitem [x0a; x14] 2 = Raise IndexError
  ∧ read_sensor_data (frame 0x100 [x0a; x14]) = Raise IndexError.
Proof. repeat split. Qed.

(** C2 (amended): a frame with identifier 0x100 and fewer than 3 payload
    bytes makes decode fail with Python's [IndexError], raised by the read
    of the first byte that is missing (the payload is not checked
    beforehand); no reading, partial or otherwise, is returned. *)
Theorem decode_composite_short_payload (payload : list byte) :
  (length payload < 3)%nat →
  getitem payload (length payload) = Raise IndexError
  ∧ read_sensor_data (frame 0x100 payload) = Raise IndexError
  ∧ ∀ v, read_sensor_data (frame 0x100 payload) ≠ Return v.
Proof.
  intros Hlen.
  assert (read_sensor_data (frame 0x100 payload) = Raise IndexError) as E.
  { unfold read_sensor_data, frame; simpl.
    destruct payload as [|b0 [|b1 [|b2 rest]]]; simpl in *; try reflexivity; lia. }
  split; [| split; [exact E | intros v Hv; rewrite E in Hv; discriminate Hv]].
  unfold getitem. now rewrite (proj2 (lookup_ge_None payload (length payload))).
Qed.

Lemma decode_composite_short_payload_witness :
  (length [x0a; x14] < 3)%nat
  ∧ read_sensor_data (frame 0x100 [x0a; x14]) = Raise IndexError.
Proof.
  split; [simpl; lia |].
  apply (decode_composite_short_payload [x0a; x14]). simpl; lia.
Defined.

End Decode.

(** ** Telemetry formatting ([vehicle_gateway.publish_telemetry]) *)

Section Telemetry.
Import VehicleGateway.

(** C10: with a protocol that is neither mqtt nor http, no branch assigns
    [resp], and the return statement fails with an unbound-variable error
    instead of giving a confirmation string. *)
Theorem publish_telemetry_unbound_resp
    (protocol platform telemetry_data : string) (cfg : Config) :
  protocol ≠ "mqtt" → protocol ≠ "http" →
  publish_telemetry protocol platform telemetry_data cfg = Raise UnboundLocalError.
Proof.
  intros Hmqtt Hhttp. unfold publish_telemetry.
  apply String.eqb_neq in Hmqtt, Hhttp.
  now rewrite Hmqtt, Hhttp.
Qed.

Lemma publish_telemetry_unbound_resp_witness :
  publish_telemetry "coap" "thingsboard" "speed=10"
    {| mqtt_broker := None; mqtt_topic := None;
       http_rest_end_point := None; cfg_api_key := None |}
  = Raise UnboundLocalError.
Proof.
  apply publish_telemetry_unbound_resp; discriminate.
Defined.

End Telemetry.

(** ** Substrings *)

Section Substrings.

Lemma prefix_append (s t : string) : String.prefix s (s +:+ t) = true.
Proof.
  induction s as [|c s IH]; simpl; [now destruct t |].
  destruct (ascii_dec c c) as [_|Hne]; [exact IH | now destruct Hne].
Qed.

Lemma contains_prefix (sub s : string) :
  String.prefix sub s = true → contains sub s = true.
Proof. intros H. destruct s; cbn [contains]; now rewrite H. Qed.

(** [sub in pre + sub + post] *)
Lemma contains_middle (sub pre post : string) :
  contains sub (pre +:+ sub +:+ post) = true.
Proof.
  induction pre as [|c pre IH].
  - change (EmptyString +:+ sub +:+ post) with (sub +:+ post).
    apply contains_prefix, prefix_append.
  - change (String c pre +:+ sub +:+ post) with (String c (pre +:+ sub +:+ post)).
    cbn [contains]. rewrite IH. apply orb_true_r.
Qed.

End Substrings.

(** ** Publishing ([publish_sensor_data] of both servers) *)

Section Publishing.

Context {float : Type}.
Variable repr_float : float → string.
Variable repr_str : string → string.

Lemma iot_demo_missing (request : IotDemo.IoTRequest (float := float)) :
  filter (λ p, IotDemo.attr_is_none request p = true) IotDemo.required = absent request.
Proof.
  destruct request as [[p|] [t|] k [sd|]]; reflexivity.
Qed.

(** What the presence check of [iot_demo]'s publish answers when it is
    handed a request object with an attribute that is [None]. *)
Lemma needs_elicitation_names_absent (request : IotDemo.IoTRequest (float := float)) :
  (∀ p sd,
     IotDemo.platform request = Some p →
     IotDemo.target request = None →
     IotDemo.sensor_data request = Some sd →
     IotDemo.publish_sensor_data request = Return (IotDemo.needs_elicitation ["target"]))
  ∧ (absent request ≠ [] →
     IotDemo.publish_sensor_data request
     = Return (IotDemo.needs_elicitation (absent request))).
Proof.
  split.
  - intros p sd Hp Ht Hsd. destruct request as [pl tg k sdo]; simpl in *; subst.
    reflexivity.
  - intros Hne. unfold IotDemo.publish_sensor_data.
    rewrite iot_demo_missing.
    destruct (absent request); [now destruct Hne | reflexivity].
Qed.

(** C4 (amended): for a request with platform thingsboard,
    [vehicle_gateway]'s publish returns the ThingsBoard sink's
    confirmation, which contains the target address and the platform name
    written ThingsBoard; [iot_demo]'s publish returns a success outcome
    whose message is [Published to thingsboard], which contains the
    platform name (the target is not part of it). *)
Theorem publish_thingsboard_confirmation :
  (∀ request : VehicleGateway.IoTRequest (float := float),
     VehicleGateway.platform request = "thingsboard" →
     VehicleGateway.publish_sensor_data repr_float repr_str request
     = VehicleGateway.send_to_thingsboard
         (VehicleGateway.target request) (VehicleGateway.api_key request)
         (VehicleGateway.dict_exclude_none repr_float repr_str
            (VehicleGateway.sensor_data request))
     ∧ contains (VehicleGateway.target request)
         (VehicleGateway.publish_sensor_data repr_float repr_str request) = true
     ∧ contains "ThingsBoard"
         (VehicleGateway.publish_sensor_data repr_float repr_str request) = true)
  ∧ (∀ (request : IotDemo.IoTRequest (float := float)) t sd,
       IotDemo.platform request = Some "thingsboard" →
       IotDemo.target request = Some t →
       IotDemo.sensor_data request = Some sd →
       IotDemo.publish_sensor_data request
       = Return (IotDemo.success "Published to thingsboard" sd)
       ∧ contains "thingsboard" "Published to thingsboard" = true).
Proof.
  split.
  - intros request Hp.
    assert (VehicleGateway.publish_sensor_data repr_float repr_str request
            = VehicleGateway.send_to_thingsboard
                (VehicleGateway.target request) (VehicleGateway.api_key request)
                (VehicleGateway.dict_exclude_none repr_float repr_str
                   (VehicleGateway.sensor_data request))) as E.
    { unfold VehicleGateway.publish_sensor_data. now rewrite Hp. }
    rewrite E. split; [reflexivity |].
    unfold VehicleGateway.send_to_thingsboard. split.
    + apply contains_middle.
    + apply (contains_middle "ThingsBoard" "[Mock] Sent to ").
  - intros request t sd Hp Ht Hsd. split; [| reflexivity].
    destruct request as [pl tg k sdo]; simpl in *; subst. reflexivity.
Qed.

(** C5 (amended): for a platform outside the recognized ones,
    [vehicle_gateway]'s publish returns the unsupported-platform answer;
    [iot_demo]'s publish does not look at the platform value and returns
    a success outcome naming it, whatever it is. *)
Theorem publish_unrecognized_platform :
  (∀ request : VehicleGateway.IoTRequest (float := float),
     VehicleGateway.platform request ∉ VehicleGateway.platform_literals →
     VehicleGateway.publish_sensor_data repr_float repr_str request
     = "Unsupported platform")
  ∧ (∀ (request : IotDemo.IoTRequest (float := float)) p t sd,
       IotDemo.platform request = Some p →
       IotDemo.target request = Some t →
       IotDemo.sensor_data request = Some sd →
       IotDemo.publish_sensor_data request
       = Return (IotDemo.success ("Published to " +:+ p) sd)).
Proof.
  split.
  - intros request Hp. unfold VehicleGateway.platform_literals in Hp.
    repeat (apply not_elem_of_cons in Hp as [?%String.eqb_neq Hp]).
    unfold VehicleGateway.publish_sensor_data.
    now repeat match goal with H : (_ =? _)%string = false |- _ => rewrite H; clear H end.
  - intros request p t sd Hp Ht Hsd.
    destruct request as [pl tg k sdo]; simpl in *; subst. reflexivity.
Qed.

End Publishing.

Section PublishingExamples.
Import Samples.

(** C4, as the claim states it, fails on [iot_demo]'s publish: the success
    message for platform thingsboard does not contain the target. *)
Lemma publish_success_message_omits_target :
  IotDemo.publish_sensor_data
    (demo_request (Some "thingsboard") (Some "http://tb.local/api/v1/telemetry"))
  = Return (IotDemo.success "Published to thingsboard" climate)
  ∧ contains "http://tb.local/api/v1/telemetry" "Published to thingsboard" = false.
Proof. split; reflexivity. Qed.

(** The ThingsBoard sink spells the platform name with capitals: the
    identifier [thingsboard] itself need not occur in its message. *)
Example thingsboard_sink_message :
  VehicleGateway.publish_sensor_data repr_whole id
    (gateway_request "thingsboard" "http://tb.local/api")
  = "[Mock] Sent to ThingsBoard at http://tb.local/api with token=tok: {"
    +:+ squote +:+ "speed" +:+ squote +:+ ": 10.0, "
    +:+ squote +:+ "rpm" +:+ squote +:+ ": 20.0, "
    +:+ squote +:+ "fuel" +:+ squote +:+ ": 5.0}"
  ∧ contains "thingsboard"
      (VehicleGateway.publish_sensor_data repr_whole id
         (gateway_request "thingsboard" "http://tb.local/api")) = false.
Proof. split; reflexivity. Qed.

Lemma publish_thingsboard_confirmation_witness :
  contains "http://tb.local/api"
    (VehicleGateway.publish_sensor_data repr_whole id
       (gateway_request "thingsboard" "http://tb.local/api")) = true
  ∧ IotDemo.publish_sensor_data
      (demo_request (Some "thingsboard") (Some "http://tb.local/api"))
    = Return (IotDemo.success "Published to thingsboard" climate).
Proof.
  split.
  - exact (proj1 (proj2 (proj1 (publish_thingsboard_confirmation repr_whole id)
                           (gateway_request "thingsboard" "http://tb.local/api")
                           eq_refl))).
  - exact (proj1 (proj2 (publish_thingsboard_confirmation repr_whole id)
                    (demo_request (Some "thingsboard") (Some "http://tb.local/api"))
                    "http://tb.local/api" climate eq_refl eq_refl eq_refl)).
Defined.

(** C5, as the claim states it, fails on [iot_demo]'s publish: a platform
    outside the recognized ones gets a success outcome. *)
Lemma publish_unknown_platform_succeeds :
  ("acme" ∉ VehicleGateway.platform_literals)
  ∧ IotDemo.publish_sensor_data (demo_request (Some "acme") (Some "http://acme.local"))
    = Return (IotDemo.success "Published to acme" climate).
Proof.
  split; [| reflexivity].
  unfold VehicleGateway.platform_literals. intros H.
  repeat (apply elem_of_cons in H as [H|H]; [discriminate H |]).
  now apply elem_of_nil in H.
Qed.

Lemma publish_unrecognized_platform_witness :
  VehicleGateway.publish_sensor_data repr_whole id
    (gateway_request "acme" "http://acme.local")
  = "Unsupported platform"
  ∧ IotDemo.publish_sensor_data (demo_request (Some "acme") (Some "http://acme.local"))
    = Return (IotDemo.success "Published to acme" climate).
Proof.
  split.
  - apply (proj1 (publish_unrecognized_platform repr_whole id)).
    unfold VehicleGateway.platform_literals. simpl. intros H.
    repeat (apply elem_of_cons in H as [H|H]; [discriminate H |]).
    now apply elem_of_nil in H.
  - exact (proj2 (publish_unrecognized_platform repr_whole id)
             (demo_request (Some "acme") (Some "http://acme.local"))
             "acme" "http://acme.local" climate eq_refl eq_refl eq_refl).
Defined.

End PublishingExamples.

(** ** Completeness checking ([iot_demo.elicit_parameters]) *)

Section Elicitation.
Import IotDemo.

Context {V : Type}.

Lemma not_in_false (key : string) (params : gmap string V) :
  is_Some (params !! key) → not_in key params = false.
Proof.
  intros [v Hv]. unfold not_in. apply bool_decide_eq_false. now rewrite Hv.
Qed.

Lemma not_in_dom (key : string) (params : gmap string V) :
  not_in key params = bool_decide (key ∉ dom params).
Proof.
  unfold not_in. apply bool_decide_ext. now rewrite not_elem_of_dom.
Qed.

(** C6: with no parameter provided the check for [publish_sensor_data]
    returns the three prompts, for platform, target and sensor_data in
    that order, and is not complete; with all three provided it returns no
    prompt and is complete; the answer is a function of the task and of
    which parameter names are provided. *)
Theorem elicit_publish_sensor_data :
  elicit_parameters "publish_sensor_data" (∅ : gmap string V)
  = {| task := "publish_sensor_data";
       missing_parameters :=
         ["Which IoT platform should be used?";
          "Provide the endpoint/broker/channel ID.";
          "Provide sensor_data (temperature, humidity, etc.)"];
       complete := false |}
  ∧ (∀ params : gmap string V,
       is_Some (params !! "platform") →
       is_Some (params !! "target") →
       is_Some (params !! "sensor_data") →
       elicit_parameters "publish_sensor_data" params
       = {| task := "publish_sensor_data";
            missing_parameters := [];
            complete := true |})
  ∧ (∀ (name : string) (params params' : gmap string V),
       dom params = dom params' →
       elicit_parameters name params = elicit_parameters name params').
Proof.
  split; [reflexivity | split].
  - intros params Hp Ht Hs. unfold elicit_parameters. simpl.
    now rewrite (not_in_false _ _ Hp), (not_in_false _ _ Ht), (not_in_false _ _ Hs).
  - intros name params params' Hdom. unfold elicit_parameters.
    now rewrite !not_in_dom, Hdom.
Qed.

(** C7: for a task other than [publish_sensor_data] the check returns no
    missing parameter and is complete, whatever is provided. *)
Theorem elicit_unknown_task (name : string) (params : gmap string V) :
  name ≠ "publish_sensor_data" →
  elicit_parameters name params
  = {| task := name; missing_parameters := []; complete := true |}.
Proof.
  intros Hne. unfold elicit_parameters.
  apply String.eqb_neq in Hne. now rewrite Hne.
Qed.

End Elicitation.

Section ElicitationExamples.
Import IotDemo.

Lemma elicit_publish_sensor_data_witness :
  elicit_parameters "publish_sensor_data"
    ({[ "platform" := "thingsboard"; "target" := "http://tb.local";
        "sensor_data" := "21.5" ]} : gmap string string)
  = {| task := "publish_sensor_data"; missing_parameters := []; complete := true |}.
Proof.
  apply (proj1 (proj2 elicit_publish_sensor_data)); vm_compute; eauto.
Defined.

Lemma elicit_unknown_task_witness :
  elicit_parameters "read_sensor_data" (∅ : gmap string string)
  = {| task := "read_sensor_data"; missing_parameters := []; complete := true |}.
Proof.
  apply elicit_unknown_task. discriminate.
Defined.

End ElicitationExamples.

(** ** Protocol discovery ([iot_demo.discover_protocols]) *)

Section Discovery.
Import IotDemo.

Lemma split_cons (sep : ascii) (s : string) :
  ∃ field fields, split sep s = field :: fields.
Proof.
  induction s as [|c s [f [fs IH]]]; simpl; [eauto |].
  destruct (Ascii.eqb c sep); [eauto |]. rewrite IH. eauto.
Qed.

(** Taking the first field of a split never raises. *)
Lemma hostname_returns (e : string) : ∃ host, hostname e = Return host.
Proof.
  unfold hostname.
  destruct (split_cons "/" (replace "https://" "" (replace "http://" "" e)))
    as [f [fs H]].
  rewrite H. exists f. reflexivity.
Qed.

Lemma elem_of_append_if (b : bool) (l : list string) (y x : string) :
  x ∈ (if b then (l ++ [y])%list else l) ↔ x ∈ l ∨ (b = true ∧ x = y).
Proof.
  destruct b.
  - rewrite elem_of_app, list_elem_of_singleton.
    split; [intros [H | H]; auto | intros [H | [_ H]]; auto].
  - split; [auto | intros [H | [H _]]; [exact H | discriminate H]].
Qed.

Variable net : Net.

Lemma elem_of_description_probes (base : string) (paths : list string)
    (supported : list string) (x : string) :
  x ∈ foldl (λ supported path,
               try_pass supported
                 (r ← requests_get net (base +:+ path);
                  Return (if (status_code r =? 200)%Z
                          then (supported ++ ["openapi-rest"])%list else supported)))
        supported paths
  ↔ x ∈ supported ∨ (x = "openapi-rest" ∧ ∃ path, path ∈ paths ∧ described net base path).
Proof.
  revert supported. induction paths as [|path paths IH]; intros supported; simpl.
  - split; [auto | intros [H | [_ [path [Hin _]]]]; [exact H |]].
    now apply elem_of_nil in Hin.
  - rewrite IH. clear IH. unfold described.
    destruct (requests_get net (base +:+ path)) as [r | err] eqn:Hget; simpl.
    + destruct (Z.eqb_spec (status_code r) 200) as [H200 | H200].
      * rewrite elem_of_app, list_elem_of_singleton. split.
        -- intros [[H | H] | [H [q [Hq Hd]]]]; [auto | right | right].
           ++ split; [exact H |]. exists path. split; [left | eauto].
           ++ split; [exact H |]. exists q. split; [now right | exact Hd].
        -- intros [H | [H [q [Hq Hd]]]]; [auto | auto].
      * split.
        -- intros [H | [H [q [Hq Hd]]]]; [auto | right].
           split; [exact H |]. exists q. split; [now right | exact Hd].
        -- intros [H | [H [q [Hq [r' [Hr' Hs]]]]]]; [auto |].
           apply elem_of_cons in Hq as [-> | Hq].
           ++ rewrite Hget in Hr'. injection Hr' as <-. contradiction.
           ++ right. split; [exact H |]. exists q. eauto.
    + split.
      * intros [H | [H [q [Hq Hd]]]]; [auto | right].
        split; [exact H |]. exists q. split; [now right | exact Hd].
      * intros [H | [H [q [Hq [r' [Hr' Hs]]]]]]; [auto |].
        apply elem_of_cons in Hq as [-> | Hq].
        -- rewrite Hget in Hr'. discriminate Hr'.
        -- right. split; [exact H |]. exists q. eauto.
Qed.

(** What one call returns: the endpoint, and each tag once, a tag being
    there exactly when its probe succeeded. *)
Lemma discover_protocols_elem (e : string) :
  ∃ host ps,
    hostname e = Return host
    ∧ discover_protocols net e = Return {| endpoint := e; protocols := ps |}
    ∧ NoDup ps
    ∧ ∀ x, x ∈ ps ↔
        (x = "http-rest" ∧ returns (requests_options net e) = true)
        ∨ (x = "openapi-rest"
           ∧ ∃ path, path ∈ description_paths ∧ described net (rstrip "/" e) path)
        ∨ (x = "mqtt" ∧ port_open net host 1883 = true)
        ∨ (x = "mqtts" ∧ port_open net host 8883 = true)
        ∨ (x = "coap" ∧ port_open net host 5683 = true).
Proof.
  destruct (hostname_returns e) as [host Hhost].
  exists host. eexists. split; [exact Hhost |]. split.
  { unfold discover_protocols. rewrite Hhost. reflexivity. }
  split; [apply NoDup_elements |].
  intros x. rewrite elem_of_elements, elem_of_list_to_set.
  rewrite !elem_of_append_if, elem_of_description_probes.
  assert (x ∈ try_pass [] (_ ← requests_options net e; Return ([] ++ ["http-rest"])%list)
          ↔ x = "http-rest" ∧ returns (requests_options net e) = true) as ->.
  { destruct (requests_options net e); simpl.
    - rewrite list_elem_of_singleton. tauto.
    - split; [intros H; now apply elem_of_nil in H | intros [_ H]; discriminate H]. }
  tauto.
Qed.

(** C8: discovery always returns a result, whatever its probes end in.  A
    tag is in the protocol list exactly when its probe succeeded, so a
    failed probe adds nothing; each tag is there at most once, also
    openapi-rest, which up to four paths can match; every tag is one of
    http-rest, openapi-rest, mqtt, mqtts, coap; and on a host where
    every probe fails the list is empty. *)
Theorem discover_protocols_absorbs_failures (e : string) :
  ∃ host ps,
    hostname e = Return host
    ∧ discover_protocols net e = Return {| endpoint := e; protocols := ps |}
    ∧ NoDup ps
    ∧ (∀ tag, tag ∈ ps → tag ∈ protocol_tags)
    ∧ ("http-rest" ∈ ps ↔ returns (requests_options net e) = true)
    ∧ ("openapi-rest" ∈ ps
       ↔ ∃ path, path ∈ description_paths ∧ described net (rstrip "/" e) path)
    ∧ ("mqtt" ∈ ps ↔ port_open net host 1883 = true)
    ∧ ("mqtts" ∈ ps ↔ port_open net host 8883 = true)
    ∧ ("coap" ∈ ps ↔ port_open net host 5683 = true)
    ∧ (unreachable net → ps = []).
Proof.
  destruct (discover_protocols_elem e) as (host & ps & Hhost & Hres & Hnodup & Hps).
  exists host, ps. repeat (split; [assumption |]).
  split.
  { intros tag Htag. unfold protocol_tags.
    apply Hps in Htag as [[-> _] | [[-> _] | [[-> _] | [[-> _] | [-> _]]]]];
      repeat constructor. }
  repeat split.
  - intros H; apply Hps in H.
    destruct H as [[_ H] | [[H _] | [[H _] | [[H _] | [H _]]]]];
      first [exact H | discriminate H].
  - intros H; apply Hps; auto.
  - intros H; apply Hps in H.
    destruct H as [[H _] | [[_ H] | [[H _] | [[H _] | [H _]]]]];
      first [exact H | discriminate H].
  - intros H; apply Hps; auto.
  - intros H; apply Hps in H.
    destruct H as [[H _] | [[H _] | [[_ H] | [[H _] | [H _]]]]];
      first [exact H | discriminate H].
  - intros H; apply Hps; auto.
  - intros H; apply Hps in H.
    destruct H as [[H _] | [[H _] | [[H _] | [[_ H] | [H _]]]]];
      first [exact H | discriminate H].
  - intros H; apply Hps; auto 6.
  - intros H; apply Hps in H.
    destruct H as [[H _] | [[H _] | [[H _] | [[H _] | [_ H]]]]];
      first [exact H | discriminate H].
  - intros H; apply Hps; auto 6.
  - intros (Hopt & Hget & Hsock). apply elem_of_nil_inv. intros x Hx.
    apply Hps in Hx. unfold port_open, described in Hx.
    destruct Hx as [[_ H] | [[_ (path & _ & r & H & _)] | [[_ H] | [[_ H] | [_ H]]]]].
    + rewrite Hopt in H. discriminate H.
    + specialize (Hget (rstrip "/" e +:+ path)). rewrite H in Hget. discriminate Hget.
    + specialize (Hsock host 1883%Z).
      destruct (socket_create_connection net host 1883); discriminate.
    + specialize (Hsock host 8883%Z).
      destruct (socket_create_connection net host 8883); discriminate.
    + specialize (Hsock host 5683%Z).
      destruct (socket_create_connection net host 5683); discriminate.
Qed.

End Discovery.

Section DiscoveryExamples.
Import IotDemo Samples.

Lemma dead_net_unreachable : unreachable dead_net.
Proof. repeat split. Qed.

Lemma discover_protocols_absorbs_failures_witness :
  discover_protocols dead_net "http://10.0.0.9/api"
  = Return {| endpoint := "http://10.0.0.9/api"; protocols := [] |}.
Proof.
  destruct (discover_protocols_absorbs_failures dead_net "http://10.0.0.9/api")
    as (host & ps & _ & Hres & _ & _ & _ & _ & _ & _ & _ & Hempty).
  rewrite Hres, (Hempty dead_net_unreachable). reflexivity.
Defined.

(** Four description paths answer 200; the tag is listed once. *)
Example discover_protocols_broker :
  ∃ ps, discover_protocols broker_net "http://broker.local/" =
          Return {| endpoint := "http://broker.local/"; protocols := ps |}
        ∧ ps ≡ₚ ["http-rest"; "openapi-rest"; "mqtt"].
Proof.
  eexists. split; [vm_compute; reflexivity |].
  symmetry. apply (Permutation_cons_append ["openapi-rest"; "mqtt"] "http-rest").
Qed.

End DiscoveryExamples.

(** ** Hostname extraction (in [iot_demo.discover_protocols]) *)

Section Hostname.
Import IotDemo.

Lemma append_cons (c : ascii) (s t : string) : String c s +:+ t = String c (s +:+ t).
Proof. reflexivity. Qed.

Lemma append_empty (t : string) : EmptyString +:+ t = t.
Proof. reflexivity. Qed.

Lemma strip_prefix_Some (p s rest : string) :
  strip_prefix p s = Some rest → s = p +:+ rest.
Proof.
  revert s. induction p as [|a p IH]; intros s H.
  - destruct s; injection H as <-; reflexivity.
  - destruct s as [|b s]; [discriminate H |]. simpl in H.
    destruct (Ascii.eqb_spec a b) as [<- | _]; [| discriminate H].
    rewrite append_cons. f_equal. now apply IH.
Qed.

(** The first field of a split is the text before the first separator. *)
Lemma split_first (s : string) : ∃ fields, split "/" s = strip_path s :: fields.
Proof.
  induction s as [|c s [fs IH]]; simpl; [eauto |].
  destruct (Ascii.eqb c "/"); [eauto |]. rewrite IH. eauto.
Qed.

(** What [hostname] computes, without the list of fields. *)
Lemma hostname_eq (e : string) :
  hostname e = Return (strip_path (replace "https://" "" (replace "http://" "" e))).
Proof.
  unfold hostname.
  destruct (split_first (replace "https://" "" (replace "http://" "" e))) as [fs ->].
  reflexivity.
Qed.

(** Passing over the rest of an occurrence. *)
Lemma replace_from_skip (old new p s : string) :
  replace_from old new (String.length p) (p +:+ s) = replace_from old new 0 s.
Proof.
  induction p as [|c p IH]; [reflexivity |].
  rewrite append_cons. exact IH.
Qed.

(** An occurrence at the front is replaced, and the scan goes on behind
    it. *)
Lemma replace_prefix (c : ascii) (old new s : string) :
  replace (String c old) new (String c old +:+ s)
  = new +:+ replace (String c old) new s.
Proof.
  unfold replace. rewrite append_cons. cbn [replace_from].
  rewrite <- append_cons, prefix_append.
  replace (String.length (String c old) - 1) with (String.length old)
    by (simpl; lia).
  now rewrite replace_from_skip.
Qed.

(** Where [old] does not occur, nothing changes. *)
Lemma replace_absent (c : ascii) (old new s : string) :
  contains (String c old) s = false → replace (String c old) new s = s.
Proof.
  unfold replace. induction s as [|d s IH]; intros H; [reflexivity |].
  cbn [contains] in H. apply orb_false_iff in H as [Hpre Hrest].
  cbn [replace_from]. rewrite Hpre. f_equal. now apply IH.
Qed.

(** Text without the first character of [old] holds no occurrence of
    [old] and is copied. *)
Lemma replace_over (c : ascii) (old new a s : string) :
  contains (String c EmptyString) a = false →
  replace (String c old) new (a +:+ s) = a +:+ replace (String c old) new s.
Proof.
  unfold replace. induction a as [|d a IH]; intros H; [reflexivity |].
  cbn [contains] in H. apply orb_false_iff in H as [Hpre Hrest].
  rewrite !append_cons. cbn [replace_from].
  assert (String.prefix (String c old) (String d (a +:+ s)) = false) as ->.
  { simpl in *. destruct (ascii_dec c d); [| reflexivity].
    destruct a; discriminate Hpre. }
  f_equal. now apply IH.
Qed.

Lemma contains_over (c : ascii) (sub a s : string) :
  contains (String c EmptyString) a = false →
  contains (String c sub) (a +:+ s) = contains (String c sub) s.
Proof.
  induction a as [|d a IH]; intros H; [reflexivity |].
  cbn [contains] in H. apply orb_false_iff in H as [Hpre Hrest].
  rewrite append_cons. cbn [contains].
  assert (String.prefix (String c sub) (String d (a +:+ s)) = false) as ->.
  { simpl in *. destruct (ascii_dec c d); [| reflexivity].
    destruct a; discriminate Hpre. }
  now apply IH.
Qed.

(** C9, as the claim states it, fails on an address that holds a scheme
    elsewhere than at its start: the code deletes it too, so the hostname
    is not the address with only a leading scheme and the path removed. *)
Lemma hostname_deletes_inner_scheme :
  hostname "broker.http://local:1883" = Return "broker.local:1883"
  ∧ hostname_spec "broker.http://local:1883" = "broker.http:"
  ∧ hostname "broker.http://local:1883"
    ≠ Return (hostname_spec "broker.http://local:1883").
Proof.
  split; [reflexivity | split; [reflexivity |]].
  intros H. discriminate H.
Qed.

(** C9 (amended): the hostname is the text before the first [/] of the
    address once every occurrence of [http://], and then of [https://],
    is deleted.  For an address that holds these schemes at most as its
    leading prefix this is the address with the leading scheme stripped
    and the path suffix removed; a scheme further inside the address is
    deleted as well. *)
Theorem hostname_scheme_stripped :
  (∀ e, hostname e
        = Return (strip_path (replace "https://" "" (replace "http://" "" e))))
  ∧ (∀ e,
       contains "http://" (strip_scheme e) = false →
       contains "https://" (strip_scheme e) = false →
       hostname e = Return (hostname_spec e))
  ∧ (∀ a rest,
       contains "h" a = false →
       contains "http://" rest = false →
       contains "https://" rest = false →
       hostname (a +:+ "http://" +:+ rest) = Return (strip_path (a +:+ rest))
       ∧ hostname (a +:+ "https://" +:+ rest) = Return (strip_path (a +:+ rest))).
Proof.
  split; [exact hostname_eq | split].
  - intros e Hhttp Hhttps. rewrite hostname_eq. unfold hostname_spec.
    do 2 f_equal. unfold strip_scheme in *.
    destruct (strip_prefix "http://" e) as [r|] eqn:E1.
    + apply strip_prefix_Some in E1 as ->.
      rewrite (replace_prefix "h" "ttp://" "" r), append_empty.
      now rewrite (replace_absent _ _ _ _ Hhttp), (replace_absent _ _ _ _ Hhttps).
    + destruct (strip_prefix "https://" e) as [r|] eqn:E2.
      * apply strip_prefix_Some in E2 as ->.
        assert (contains "http://" ("https://" +:+ r) = false) as Hc
          by exact Hhttp.
        rewrite (replace_absent _ _ _ _ Hc).
        rewrite (replace_prefix "h" "ttps://" "" r), append_empty.
        now rewrite (replace_absent _ _ _ _ Hhttps).
      * now rewrite (replace_absent _ _ _ _ Hhttp), (replace_absent _ _ _ _ Hhttps).
  - intros a rest Ha Hhttp Hhttps.
    assert (replace "https://" "" (a +:+ rest) = a +:+ rest) as Hclean.
    { apply replace_absent. now rewrite (contains_over _ _ _ _ Ha). }
    split; rewrite hostname_eq; do 2 f_equal.
    + rewrite (replace_over "h" "ttp://" "" a _ Ha).
      rewrite (replace_prefix "h" "ttp://" "" rest), append_empty.
      now rewrite (replace_absent _ _ _ _ Hhttp).
    + assert (contains "http://" ("https://" +:+ rest) = false) as Hc
        by exact Hhttp.
      rewrite (replace_over "h" "ttp://" "" a _ Ha).
      rewrite (replace_absent _ _ _ _ Hc).
      rewrite (replace_over "h" "ttps://" "" a _ Ha).
      rewrite (replace_prefix "h" "ttps://" "" rest), append_empty.
      now rewrite (replace_absent _ _ _ _ Hhttps).
Qed.

Lemma hostname_scheme_stripped_witness :
  hostname "https://broker.local:8883/api/v1" = Return "broker.local:8883"
  ∧ hostname "broker.http://local:1883" = Return "broker.local:1883".
Proof.
  split.
  - exact (proj1 (proj2 hostname_scheme_stripped)
             "https://broker.local:8883/api/v1" eq_refl eq_refl).
  - exact (proj1 (proj2 (proj2 hostname_scheme_stripped)
                    "broker." "local:1883" eq_refl eq_refl eq_refl)).
Defined.

End Hostname.

(** ** More on frame decoding ([vehicle_gateway.read_sensor_data]) *)

Section DecodeMore.
Import VehicleGateway.

(** Printing a number loses nothing. *)
Lemma str_of_int_inj (a b : N) : str_of_int a = str_of_int b → a = b.
Proof.
  unfold str_of_int. intros H.
  assert (∀ n, N.to_uint n ≠ Nil) as Hnil.
  { intros [|q]; [discriminate | apply DecimalPos.Unsigned.to_uint_nonnil]. }
  apply (f_equal NilZero.uint_of_string) in H.
  rewrite !NilZero.usu in H by apply Hnil.
  injection H as H. now apply DecimalN.Unsigned.to_uint_inj.
Qed.

Lemma byte_to_N_inj (a b : byte) : Byte.to_N a = Byte.to_N b → a = b.
Proof.
  intros H. apply (f_equal Byte.of_N) in H.
  rewrite !Byte.of_to_N in H. now injection H.
Qed.

(** Once [can_bus.recv] has returned, with a frame or with [None], the
    only exception of the rest of [read_sensor_data] is [IndexError], and
    it is raised exactly on a frame of a known identifier whose payload is
    too short: empty for 0x101, 0x102 and 0x103, under three bytes for
    0x100.  A timeout and a frame of any other identifier always get an
    answer.  (Computing the timeout and the receive itself come before and
    are not part of this.) *)
Theorem read_sensor_data_raises_iff (msg : option Message) :
  (∀ e, read_sensor_data msg = Raise e → e = IndexError)
  ∧ (returns (read_sensor_data msg) = false
     ↔ ∃ m, msg = Some m
            ∧ ((arbitration_id m ∈ [0x101; 0x102; 0x103]%Z ∧ data m = [])
               ∨ (arbitration_id m = 0x100%Z ∧ (length (data m) < 3)%nat))).
Proof.
  destruct msg as [[can_id payload]|]; cycle 1.
  { split; [discriminate |]. split; [discriminate |].
    intros (m & Hm & _). discriminate Hm. }
  unfold read_sensor_data; cbn [arbitration_id data].
  destruct (Z.eqb_spec can_id 0x101) as [-> | H101];
    [| destruct (Z.eqb_spec can_id 0x102) as [-> | H102];
       [| destruct (Z.eqb_spec can_id 0x103) as [-> | H103];
          [| destruct (Z.eqb_spec can_id 0x100) as [-> | H100]]]].
  1-3: destruct payload as [|b0 rest]; simpl;
    (split; [intros e He; first [discriminate He | now injection He] |]);
    (split; [intros H;
             first [discriminate H
                   | eexists; split; [reflexivity |];
                     left; split; [repeat constructor | reflexivity]]
            | intros (m & [= <-] & [[_ Hd] | [Hid _]]);
              cbn in *; first [reflexivity | discriminate]]).
  - destruct payload as [|b0 [|b1 [|b2 rest]]]; simpl;
      (split; [intros e He; first [discriminate He | now injection He] |]);
      (split; [intros H;
               first [discriminate H
                     | eexists; split; [reflexivity |];
                       right; split; [reflexivity | simpl; lia]]
              | intros (m & [= <-] & [[_ Hd] | [_ Hlen]]);
                cbn in *; first [reflexivity | discriminate | lia]]).
  - split; [discriminate |]. split; [discriminate |].
    intros (m & [= <-] & [[Hid _] | [Hid _]]); cbn in *; [| contradiction].
    repeat (apply elem_of_cons in Hid as [Hid | Hid]; [contradiction |]).
    now apply elem_of_nil in Hid.
Qed.

(** The answer to a single-value frame tells byte 0 and nothing else: two
    frames of the same identifier among 0x101, 0x102, 0x103 get the same
    answer exactly when their first payload bytes are equal. *)
Theorem single_value_answer_tells_byte0
    (can_id : Z) (b0 c0 : byte) (rest rest' : list byte) :
  can_id ∈ [0x101; 0x102; 0x103]%Z →
  read_sensor_data (frame can_id (b0 :: rest))
  = read_sensor_data (frame can_id (c0 :: rest'))
  ↔ b0 = c0.
Proof.
  intros Hid.
  repeat (apply elem_of_cons in Hid as [-> | Hid]);
    [| | | now apply elem_of_nil in Hid];
    (split; [| now intros ->]); intros H; simpl in H; injection H as H;
    now apply byte_to_N_inj, str_of_int_inj.
Qed.

Lemma single_value_answer_tells_byte0_witness :
  read_sensor_data (frame 0x102 [x2a; x00; xff])
  = read_sensor_data (frame 0x102 [x2a]).
Proof.
  apply (single_value_answer_tells_byte0 0x102 x2a x2a [x00; xff] []).
  - repeat constructor.
  - reflexivity.
Defined.

Lemma append_assoc (a b c : string) : (a +:+ b) +:+ c = a +:+ b +:+ c.
Proof.
  induction a as [|x a IH]; [reflexivity |].
  change ((String x a +:+ b) +:+ c) with (String x ((a +:+ b) +:+ c)).
  now rewrite IH.
Qed.

Lemma all_digits_str_of_int (n : N) : all_digits (str_of_int n) = true.
Proof.
  unfold str_of_int.
  assert (∀ d, all_digits (NilEmpty.string_of_uint d) = true) as Hd
    by (induction d; simpl; auto).
  unfold NilZero.string_of_uint. destruct (N.to_uint n); try apply Hd. reflexivity.
Qed.

(** Digits followed by something that is no digit: where the digits end is
    fixed by the text. *)
Lemma digits_append_inj (a a' : string) (c c' : ascii) (s s' : string) :
  all_digits a = true → all_digits a' = true →
  is_digit c = false → is_digit c' = false →
  a +:+ String c s = a' +:+ String c' s' →
  a = a' ∧ String c s = String c' s'.
Proof.
  revert a'. induction a as [|x a IH]; intros [|y a'] Ha Ha' Hc Hc' H.
  - now split.
  - change (String c s = String y (a' +:+ String c' s')) in H.
    injection H as -> _. simpl in Ha'. rewrite Hc in Ha'. discriminate Ha'.
  - change (String x (a +:+ String c s) = String c' s') in H.
    injection H as -> _. simpl in Ha. rewrite Hc' in Ha. discriminate Ha.
  - change (String x (a +:+ String c s) = String y (a' +:+ String c' s')) in H.
    injection H as -> H. simpl in Ha, Ha'.
    apply andb_true_iff in Ha as [_ Ha]. apply andb_true_iff in Ha' as [_ Ha'].
    destruct (IH a' Ha Ha' Hc Hc' H) as [-> Hs]. now split.
Qed.

(** The text of a composite reading, with the three numbers set apart. *)
Lemma json_dumps_reading_text (a b c : N) :
  json_dumps [("speed", a); ("rpm", b); ("fuel", c)]
  = ("{" +:+ dquote +:+ "speed" +:+ dquote +:+ ": ")
    +:+ str_of_int a
    +:+ String "," (" " +:+ dquote +:+ "rpm" +:+ dquote +:+ ": "
    +:+ str_of_int b
    +:+ String "," (" " +:+ dquote +:+ "fuel" +:+ dquote +:+ ": "
    +:+ str_of_int c
    +:+ String "}" EmptyString)).
Proof.
  unfold json_dumps. cbn [map join fst snd]. unfold dquote.
  rewrite !append_assoc. reflexivity.
Qed.

Lemma append_inj_l (p x y : string) : p +:+ x = p +:+ y → x = y.
Proof.
  induction p as [|c p IH]; intros H; [exact H |].
  change (String c (p +:+ x) = String c (p +:+ y)) in H.
  injection H as H. now apply IH.
Qed.

(** The answer to a composite frame tells bytes 0, 1 and 2 and nothing
    else: two frames of identifier 0x100 with at least three payload bytes
    get the same answer exactly when their first three bytes are equal. *)
Theorem composite_answer_tells_bytes
    (b0 b1 b2 c0 c1 c2 : byte) (rest rest' : list byte) :
  read_sensor_data (frame 0x100 (b0 :: b1 :: b2 :: rest))
  = read_sensor_data (frame 0x100 (c0 :: c1 :: c2 :: rest'))
  ↔ b0 = c0 ∧ b1 = c1 ∧ b2 = c2.
Proof.
  split; [| now intros (-> & -> & ->)].
  intros H.
  apply (f_equal (λ o, match o with Return (Str text) => text | _ => EmptyString end)) in H.
  change (json_dumps [("speed", Byte.to_N b0); ("rpm", Byte.to_N b1); ("fuel", Byte.to_N b2)]
          = json_dumps [("speed", Byte.to_N c0); ("rpm", Byte.to_N c1); ("fuel", Byte.to_N c2)])
    in H.
  rewrite !json_dumps_reading_text in H.
  apply append_inj_l in H.
  apply digits_append_inj in H as [H0 H];
    [| apply all_digits_str_of_int | apply all_digits_str_of_int | reflexivity | reflexivity].
  injection H as H. apply append_inj_l in H.
  apply digits_append_inj in H as [H1 H];
    [| apply all_digits_str_of_int | apply all_digits_str_of_int | reflexivity | reflexivity].
  injection H as H. apply append_inj_l in H.
  apply digits_append_inj in H as [H2 _];
    [| apply all_digits_str_of_int | apply all_digits_str_of_int | reflexivity | reflexivity].
  repeat split; now apply byte_to_N_inj, str_of_int_inj.
Qed.

End DecodeMore.

(** ** More on telemetry formatting ([vehicle_gateway.publish_telemetry]) *)

Section TelemetryMore.
Import VehicleGateway.

(** [publish_telemetry] gives a confirmation exactly for the protocols mqtt
    and http, and every confirmation starts with [Sending] and holds the
    telemetry text. *)
Theorem publish_telemetry_confirms
    (protocol platform telemetry_data : string) (cfg : Config) :
  (returns (publish_telemetry protocol platform telemetry_data cfg) = true
   ↔ protocol = "mqtt" ∨ protocol = "http")
  ∧ (∀ resp, publish_telemetry protocol platform telemetry_data cfg = Return resp →
       String.prefix "Sending " resp = true ∧ contains telemetry_data resp = true).
Proof.
  unfold publish_telemetry.
  destruct (String.eqb_spec protocol "mqtt") as [-> | Hmqtt];
    [| destruct (String.eqb_spec protocol "http") as [-> | Hhttp]]; simpl.
  1-2: destruct (platform =? "thingspeak")%string, (platform =? "thingsboard")%string;
    (split; [split; auto |]); intros resp H; injection H as <-;
    (split; [apply (prefix_append "Sending ")
            | apply (contains_middle telemetry_data "Sending ")]).
  split; [| discriminate].
  split; [discriminate | intros [H | H]; contradiction].
Qed.

(** Over http the confirmation names thingspeak whatever the platform is,
    thingsboard included; over mqtt it names thingspeak or thingsboard when
    that is the platform, and the custom broker for every other platform. *)
Theorem publish_telemetry_routes
    (platform telemetry_data : string) (cfg : Config) :
  publish_telemetry "http" platform telemetry_data cfg
  = Return ("Sending " +:+ telemetry_data +:+ " to thingspeak using http")
  ∧ publish_telemetry "mqtt" "thingspeak" telemetry_data cfg
    = Return ("Sending " +:+ telemetry_data +:+ " to thingspeak using mqtt")
  ∧ publish_telemetry "mqtt" "thingsboard" telemetry_data cfg
    = Return ("Sending " +:+ telemetry_data +:+ " to thingsboard using mqtt")
  ∧ (platform ≠ "thingspeak" → platform ≠ "thingsboard" →
     publish_telemetry "mqtt" platform telemetry_data cfg
     = Return ("Sending " +:+ telemetry_data +:+ " to custom mqtt broker ")).
Proof.
  unfold publish_telemetry; simpl.
  split; [| split; [reflexivity | split; [reflexivity |]]].
  - now destruct (platform =? "thingspeak")%string, (platform =? "thingsboard")%string.
  - intros H1 H2. apply String.eqb_neq in H1, H2. now rewrite H1, H2.
Qed.

Lemma publish_telemetry_routes_witness :
  publish_telemetry "http" "thingsboard" "speed=10"
    {| mqtt_broker := None; mqtt_topic := None;
       http_rest_end_point := None; cfg_api_key := None |}
  = Return "Sending speed=10 to thingspeak using http"
  ∧ publish_telemetry "mqtt" "acme" "speed=10"
      {| mqtt_broker := None; mqtt_topic := None;
         http_rest_end_point := None; cfg_api_key := None |}
    = Return "Sending speed=10 to custom mqtt broker ".
Proof.
  split.
  - exact (proj1 (publish_telemetry_routes "thingsboard" "speed=10" _)).
  - apply (proj2 (proj2 (proj2 (publish_telemetry_routes "acme" "speed=10" _))));
      discriminate.
Defined.

End TelemetryMore.

(** ** More on dispatch ([vehicle_gateway.publish_sensor_data]) *)

Section DispatchMore.
Import VehicleGateway.

Context {float : Type}.
Variable repr_float : float → string.
Variable repr_str : string → string.

Abbreviation publish := (publish_sensor_data repr_float repr_str).

(** What publish returns, by platform. *)
Lemma publish_cases (request : IoTRequest (float := float)) :
  let data := dict_exclude_none repr_float repr_str (sensor_data request) in
  (platform request = "thingsboard"
   ∧ publish request = send_to_thingsboard (target request) (api_key request) data)
  ∨ (platform request = "thingspeak"
     ∧ publish request = send_to_thingspeak (target request) (api_key request) data)
  ∨ (platform request = "custom_rest"
     ∧ publish request = send_to_rest (target request) (api_key request) data)
  ∨ (platform request = "custom_mqtt"
     ∧ publish request = send_to_mqtt (target request) data)
  ∨ ((platform request ∉ platform_literals)
     ∧ publish request = "Unsupported platform").
Proof.
  unfold publish_sensor_data, platform_literals.
  destruct (String.eqb_spec (platform request) "thingsboard") as [H1 | H1]; [auto |].
  destruct (String.eqb_spec (platform request) "thingspeak") as [H2 | H2]; [auto |].
  destruct (String.eqb_spec (platform request) "custom_rest") as [H3 | H3]; [auto |].
  destruct (String.eqb_spec (platform request) "custom_mqtt") as [H4 | H4]; [auto 6 |].
  do 4 right. split; [| reflexivity]. intros H.
  repeat (apply elem_of_cons in H as [H | H]; [contradiction |]).
  now apply elem_of_nil in H.
Qed.

(** Publish answers [Unsupported platform] exactly when the platform is
    not one of thingsboard, thingspeak, custom_rest, custom_mqtt. *)
Theorem publish_unsupported_iff (request : IoTRequest (float := float)) :
  publish request = "Unsupported platform"
  ↔ platform request ∉ platform_literals.
Proof.
  destruct (publish_cases request)
    as [[Hp ->] | [[Hp ->] | [[Hp ->] | [[Hp ->] | [Hp ->]]]]];
    try (split; [intros H; discriminate H | intros H; exfalso; apply H;
                 rewrite Hp; unfold platform_literals; repeat constructor]).
  now split.
Qed.

(** For each of the four platforms the confirmation is a mock receipt that
    holds the target. *)
Theorem publish_receipt_holds_target (request : IoTRequest (float := float)) :
  platform request ∈ platform_literals →
  String.prefix "[Mock] " (publish request) = true
  ∧ contains (target request) (publish request) = true.
Proof.
  intros Hin.
  destruct (publish_cases request)
    as [[Hp ->] | [[Hp ->] | [[Hp ->] | [[Hp ->] | [Hp ->]]]]];
    [| | | | contradiction].
  - split; [reflexivity | apply contains_middle].
  - split; [reflexivity | apply contains_middle].
  - split; [reflexivity | apply contains_middle].
  - split; [reflexivity | apply contains_middle].
Qed.

(** The credential is printed in the receipt of thingsboard, thingspeak
    and custom_rest, as the word None when there is none; the receipt of
    custom_mqtt does not depend on it. *)
Theorem publish_receipt_credential
    (name address : string) (key key' : option string) (sd : SensorData) :
  (name ∈ ["thingsboard"; "thingspeak"; "custom_rest"] →
   contains (str_of_optional key)
     (publish {| platform := name; target := address;
                 api_key := key; sensor_data := sd |}) = true)
  ∧ publish {| platform := "custom_mqtt"; target := address;
               api_key := key; sensor_data := sd |}
    = publish {| platform := "custom_mqtt"; target := address;
                 api_key := key'; sensor_data := sd |}.
Proof.
  split; [| reflexivity].
  assert (∀ sub a b c post, contains sub (a +:+ b +:+ c +:+ sub +:+ post) = true)
    as Hthird.
  { intros sub a b c post.
    rewrite <- (append_assoc b c), <- (append_assoc a (b +:+ c)).
    apply contains_middle. }
  intros Hin.
  repeat (apply elem_of_cons in Hin as [-> | Hin]);
    [| | | now apply elem_of_nil in Hin].
  - change (publish {| platform := "thingsboard"; target := address;
                       api_key := key; sensor_data := sd |})
      with (send_to_thingsboard address key (dict_exclude_none repr_float repr_str sd)).
    apply Hthird.
  - change (publish {| platform := "thingspeak"; target := address;
                       api_key := key; sensor_data := sd |})
      with (send_to_thingspeak address key (dict_exclude_none repr_float repr_str sd)).
    apply Hthird.
  - change (publish {| platform := "custom_rest"; target := address;
                       api_key := key; sensor_data := sd |})
      with (send_to_rest address key (dict_exclude_none repr_float repr_str sd)).
    apply Hthird.
Qed.

End DispatchMore.

Section DispatchExamples.
Import VehicleGateway Samples.

Lemma publish_receipt_holds_target_witness :
  contains "mqtt://broker.local:1883"
    (publish_sensor_data repr_whole id
       (gateway_request "custom_mqtt" "mqtt://broker.local:1883")) = true.
Proof.
  apply (publish_receipt_holds_target repr_whole id
           (gateway_request "custom_mqtt" "mqtt://broker.local:1883")).
  unfold platform_literals. repeat constructor.
Defined.

Lemma publish_receipt_credential_witness :
  contains "tok"
    (publish_sensor_data repr_whole id
       {| platform := "custom_rest"; target := "http://rest.local/in";
          api_key := Some "tok"; sensor_data := drive |}) = true.
Proof.
  apply (proj1 (publish_receipt_credential repr_whole id
                  "custom_rest" "http://rest.local/in" (Some "tok") None drive)).
  repeat constructor.
Defined.

(** Only the three fields that are set reach the sink. *)
Example dict_exclude_none_drive :
  dict_exclude_none repr_whole id drive
  = [("speed", "10.0"); ("rpm", "20.0"); ("fuel", "5.0")].
Proof. reflexivity. Qed.

End DispatchExamples.

(** ** More on completeness checking ([iot_demo.elicit_parameters]) *)

Section ElicitationMore.
Import IotDemo.

Context {V : Type}.

(** For the task [publish_sensor_data], each prompt is listed exactly when
    its own parameter is not among the keys provided, and the check is
    complete exactly when all three are provided; the value stored under a
    key, and any other key, play no part. *)
Theorem elicit_prompt_iff_absent (params : gmap string V) :
  let answer := elicit_parameters "publish_sensor_data" params in
  ("Which IoT platform should be used?" ∈ missing_parameters answer
   ↔ params !! "platform" = None)
  ∧ ("Provide the endpoint/broker/channel ID." ∈ missing_parameters answer
     ↔ params !! "target" = None)
  ∧ ("Provide sensor_data (temperature, humidity, etc.)" ∈ missing_parameters answer
     ↔ params !! "sensor_data" = None)
  ∧ (complete answer = true
     ↔ is_Some (params !! "platform") ∧ is_Some (params !! "target")
       ∧ is_Some (params !! "sensor_data")).
Proof.
  unfold elicit_parameters, not_in. cbn -[bool_decide].
  destruct (params !! "platform") as [vp|], (params !! "target") as [vt|],
    (params !! "sensor_data") as [vs|]; cbn;
    repeat split;
    try (intros H; repeat (apply elem_of_cons in H as [H | H]; [discriminate H |]);
         now apply elem_of_nil in H);
    try discriminate;
    try (intros (H1 & H2 & H3);
         first [destruct H1 as [x Hx]; discriminate Hx
               | destruct H2 as [x Hx]; discriminate Hx
               | destruct H3 as [x Hx]; discriminate Hx]);
    try (intros _; repeat constructor); eauto.
Qed.

End ElicitationMore.

(** ** More on the mock publish ([iot_demo.publish_sensor_data]) *)

Section MockPublish.
Import IotDemo.

Context {float : Type}.

(** [iot_demo]'s publish never raises: the sensor data is only read once
    it is known to be there.  It succeeds exactly when platform, target and
    sensor data are all present, and then hands back the sensor data it was
    given; the credential plays no part in the answer. *)
Theorem publish_total
    (p t k : option string) (sd : option (SensorData (float := float))) :
  let request := {| platform := p; target := t; api_key := k; sensor_data := sd |} in
  (∃ answer, publish_sensor_data request = Return answer)
  ∧ (∀ message data,
       publish_sensor_data request = Return (success message data)
       ↔ (∃ name, p = Some name ∧ message = "Published to " +:+ name)
         ∧ is_Some t ∧ sd = Some data)
  ∧ (∀ k', publish_sensor_data request
           = publish_sensor_data
               {| platform := p; target := t; api_key := k'; sensor_data := sd |}).
Proof.
  destruct p as [name|], t as [address|], sd as [data0|]; cbn;
    (split; [eauto |]); (split; [| reflexivity]); intros message data; split;
    try discriminate.
  - intros [= <- <-]. eauto.
  - intros ((name' & [= <-] & ->) & _ & [= <-]). reflexivity.
  - intros (_ & _ & H). discriminate H.
  - intros (_ & [x H] & _). discriminate H.
  - intros (_ & [x H] & _). discriminate H.
  - intros ((x & H & _) & _). discriminate H.
  - intros ((x & H & _) & _). discriminate H.
  - intros ((x & H & _) & _). discriminate H.
  - intros ((x & H & _) & _). discriminate H.
Qed.

End MockPublish.

(** ** More on discovery ([iot_demo.discover_protocols]) *)

Section DiscoveryMore.
Import IotDemo.

Lemma prefix_true_append (p s : string) :
  String.prefix p s = true → ∃ rest, s = p +:+ rest.
Proof.
  revert s. induction p as [|a p IH]; intros s H.
  - exists s. reflexivity.
  - destruct s as [|b s]; [discriminate H |]. simpl in H.
    destruct (ascii_dec a b) as [<- | _]; [| discriminate H].
    destruct (IH s H) as [rest ->]. exists rest. reflexivity.
Qed.

(** A text that holds [pre + sub + post] holds [sub]. *)
Lemma contains_inner (pre sub post s : string) :
  contains (pre +:+ sub +:+ post) s = true → contains sub s = true.
Proof.
  induction s as [|c s IH]; intros H; cbn [contains] in H.
  - rewrite orb_false_r in H. apply prefix_true_append in H as [rest H].
    destruct pre, sub; try discriminate H. reflexivity.
  - apply orb_true_iff in H as [H | H].
    + apply prefix_true_append in H as [rest Hrest]. rewrite Hrest.
      rewrite !append_assoc. apply contains_middle.
    + cbn [contains]. rewrite (IH H). apply orb_true_r.
Qed.

Lemma prefix_char (a c : ascii) (s : string) :
  String.prefix (String a EmptyString) (String c s) = Ascii.eqb a c.
Proof.
  cbn [String.prefix].
  destruct (ascii_dec a c) as [-> | Hne].
  - rewrite Ascii.eqb_refl. now destruct s.
  - symmetry. now apply Ascii.eqb_neq.
Qed.

Lemma strip_path_no_slash (s : string) : contains "/" (strip_path s) = false.
Proof.
  induction s as [|c s IH]; [reflexivity |]. cbn [strip_path].
  destruct (Ascii.eqb_spec c "/") as [-> | Hc]; [reflexivity |].
  cbn [contains]. rewrite IH, orb_false_r, prefix_char.
  apply Ascii.eqb_neq. congruence.
Qed.

Lemma strip_path_id (s : string) : contains "/" s = false → strip_path s = s.
Proof.
  induction s as [|c s IH]; [reflexivity |]. cbn [contains]. intros H.
  apply orb_false_iff in H as [Hc Hs]. rewrite prefix_char in Hc.
  cbn [strip_path]. rewrite Ascii.eqb_sym, Hc. f_equal. now apply IH.
Qed.

(** The host the port checks go to never holds a [/], whatever the
    endpoint; and an endpoint without any [/], such as a bare host name
    with or without a port, is used as it stands. *)
Theorem hostname_no_slash (e : string) :
  (∃ host, hostname e = Return host ∧ contains "/" host = false)
  ∧ (contains "/" e = false → hostname e = Return e).
Proof.
  split.
  - eexists. split; [apply hostname_eq | apply strip_path_no_slash].
  - intros H. rewrite hostname_eq. f_equal.
    assert (∀ scheme, contains (scheme +:+ "/" +:+ "/") e = false) as Hs.
    { intros scheme. destruct (contains (scheme +:+ "/" +:+ "/") e) eqn:E; [| reflexivity].
      apply contains_inner in E. congruence. }
    rewrite (replace_absent "h" "ttp://" "" e (Hs "http:")).
    rewrite (replace_absent "h" "ttps://" "" e (Hs "https:")).
    now apply strip_path_id.
Qed.

Lemma hostname_no_slash_witness :
  hostname "broker.local:1883" = Return "broker.local:1883".
Proof.
  apply (proj2 (hostname_no_slash "broker.local:1883")). reflexivity.
Defined.

Lemma rstrip_trailing (e : string) : rstrip "/" (e +:+ "/") = rstrip "/" e.
Proof.
  induction e as [|c e IH]; [reflexivity |].
  change (String c e +:+ "/") with (String c (e +:+ "/")).
  cbn [rstrip]. now rewrite IH.
Qed.

(** A slash at the end of the endpoint does not change the description
    URLs that are tried: the endpoint with and without it get the tag
    openapi-rest together, or not at all. *)
Theorem discover_trailing_slash (net : Net) (e : string) :
  ∃ ps ps',
    discover_protocols net e = Return {| endpoint := e; protocols := ps |}
    ∧ discover_protocols net (e +:+ "/")
      = Return {| endpoint := e +:+ "/"; protocols := ps' |}
    ∧ ("openapi-rest" ∈ ps ↔ "openapi-rest" ∈ ps').
Proof.
  destruct (discover_protocols_elem net e) as (host & ps & _ & Hres & _ & Hps).
  destruct (discover_protocols_elem net (e +:+ "/"))
    as (host' & ps' & _ & Hres' & _ & Hps').
  exists ps, ps'. split; [exact Hres |]. split; [exact Hres' |].
  rewrite Hps, Hps', rstrip_trailing.
  split; intros [[H _] | [[_ H] | [[H _] | [[H _] | [H _]]]]];
    try discriminate H; right; left; (split; [reflexivity | exact H]).
Qed.

End DiscoveryMore.

(** ** The sample buffer ([iot_demo]: sampling tools and [explain_sampling]) *)

Section SampleBuffer.
Import Sampling.

Context {float : Type}.
Variable sum_floats : list float → float.
Variable div_len : float → nat → float.
Variable lt : float → float → bool.
Variable repr_float : float → string.

Abbreviation sample := (gmap string (value (float := float))).
Abbreviation summarize := (summarize_samples sum_floats div_len lt).
Abbreviation explain := (explain_sampling repr_float).

Lemma sample_sensor_data_recorded (temperature humidity : float) (now : string)
    (buffer : list sample) :
  recorded (data (sample_sensor_data temperature humidity now buffer).1).
Proof. exists temperature, humidity, now. repeat split. Qed.

Lemma after_recorded (buffer : list sample) (c : call) :
  Forall recorded buffer → Forall recorded (after buffer c).
Proof.
  intros H. destruct c as [t h now|]; simpl; [| constructor].
  apply Forall_app. split; [exact H |].
  constructor; [| constructor]. apply (sample_sensor_data_recorded t h now buffer).
Qed.

(** Every dict in the buffer was made by [sample_sensor_data]. *)
Lemma session_recorded (calls : list call) :
  Forall recorded (session (float := float) calls).
Proof.
  unfold session.
  assert (∀ buffer : list sample, Forall recorded buffer →
            Forall recorded (foldl after buffer calls)) as H.
  { induction calls as [|c calls IH]; intros buffer Hb; [exact Hb |].
    simpl. apply IH, after_recorded, Hb. }
  apply H. constructor.
Qed.

Lemma sample_lines_Ok (samples : list sample) :
  (∃ lines, sample_lines repr_float samples = Ok lines) ↔ Forall keyed samples.
Proof.
  induction samples as [|s rest IH]; simpl.
  - split; [constructor | eauto].
  - unfold sample_line, subscript, keyed. split.
    + intros [lines H]. constructor.
      * destruct (s !! "timestamp"), (s !! "temperature"), (s !! "humidity");
          try discriminate H. eauto.
      * apply IH.
        destruct (s !! "timestamp"), (s !! "temperature"), (s !! "humidity");
          try discriminate H. simpl in H.
        destruct (sample_lines repr_float rest); [eauto | discriminate H].
    + intros H. apply Forall_cons in H as [([ts ->] & [t ->] & [h ->]) Hrest].
      apply IH in Hrest as [lines ->]. simpl. eauto.
Qed.

Lemma sample_lines_Err (samples : list sample) (e : error) :
  sample_lines repr_float samples = Err e →
  ∃ key, e = KeyError key ∧ key ∈ ["timestamp"; "temperature"; "humidity"].
Proof.
  induction samples as [|s rest IH]; simpl; [discriminate |].
  unfold sample_line, subscript.
  destruct (s !! "timestamp"); simpl;
    [| intros [= <-]; eexists; split; [reflexivity | repeat constructor]].
  destruct (s !! "temperature"); simpl;
    [| intros [= <-]; eexists; split; [reflexivity | repeat constructor]].
  destruct (s !! "humidity"); simpl;
    [| intros [= <-]; eexists; split; [reflexivity | repeat constructor]].
  destruct (sample_lines repr_float rest) as [lines | e']; simpl; [discriminate |].
  intros [= <-]. now apply IH.
Qed.

Lemma element_lines_dicts (dicts : list sample) :
  Untyped.element_lines repr_float (Untyped.Mapping <$> dicts)
  = sample_lines repr_float dicts.
Proof.
  induction dicts as [|d dicts IH]; csimpl; [reflexivity |]. now rewrite IH.
Qed.

Lemma element_lines_Ok (samples : list (Untyped.element (float := float))) :
  (∃ lines, Untyped.element_lines repr_float samples = Ok lines)
  ↔ Forall (λ x, ∃ d, x = Untyped.Mapping d ∧ keyed d) samples.
Proof.
  induction samples as [|x rest IH]; simpl.
  - split; [constructor | eauto].
  - split.
    + intros [lines H]. destruct x as [d|]; [| discriminate H].
      cbn [Untyped.element_line] in H.
      destruct (sample_line repr_float d) as [line|] eqn:Hline; [| discriminate H].
      simpl in H.
      destruct (Untyped.element_lines repr_float rest) as [ls|]; [| discriminate H].
      constructor; [| apply IH; eauto].
      exists d. split; [reflexivity |].
      assert (∃ ls', sample_lines repr_float [d] = Ok ls') as Hd
        by (simpl; rewrite Hline; simpl; eauto).
      apply sample_lines_Ok in Hd. now apply Forall_cons in Hd as [Hd _].
    + intros H. apply Forall_cons in H as [(d & -> & Hd) Hrest].
      apply IH in Hrest as [ls ->]. cbn [Untyped.element_line].
      assert (∃ ls', sample_lines repr_float [d] = Ok ls') as [ls' Hls']
        by (apply sample_lines_Ok; constructor; [exact Hd | constructor]).
      simpl in Hls'. destruct (sample_line repr_float d) as [line|];
        [simpl; eauto | discriminate Hls'].
Qed.

Lemma element_lines_Err (samples : list (Untyped.element (float := float)))
    (e : error) :
  Untyped.element_lines repr_float samples = Err e →
  e = TypeError
  ∨ ∃ key, e = KeyError key ∧ key ∈ ["timestamp"; "temperature"; "humidity"].
Proof.
  induction samples as [|x rest IH]; simpl; [discriminate |].
  destruct x as [d|]; cbn [Untyped.element_line]; [| intros [= <-]; now left].
  destruct (sample_line repr_float d) as [line|e'] eqn:Hline; simpl.
  - destruct (Untyped.element_lines repr_float rest) as [ls|e'']; simpl;
      [discriminate |]. intros [= <-]. now apply IH.
  - intros [= <-]. right. apply (sample_lines_Err [d]). simpl. now rewrite Hline.
Qed.

(** [explain_sampling] gives a text exactly when every element of the
    list it is handed is a dict with the keys timestamp, temperature and
    humidity; otherwise it raises [TypeError], for an element that is no
    dict, or [KeyError] for one of these keys, and nothing else.  On a list
    of dicts it is the function used on the buffer. *)
Theorem explain_sampling_needs_dicts
    (samples : list (Untyped.element (float := float))) :
  ((∃ text, Untyped.explain_sampling repr_float samples = Ok text)
   ↔ Forall (λ x, ∃ d, x = Untyped.Mapping d ∧ keyed d) samples)
  ∧ (∀ e, Untyped.explain_sampling repr_float samples = Err e →
       e = TypeError
       ∨ ∃ key, e = KeyError key ∧ key ∈ ["timestamp"; "temperature"; "humidity"])
  ∧ (∀ dicts : list sample,
       Untyped.explain_sampling repr_float (Untyped.Mapping <$> dicts)
       = explain dicts).
Proof.
  unfold Untyped.explain_sampling.
  split; [rewrite <- element_lines_Ok; split | split].
  - intros [text H].
    destruct (Untyped.element_lines repr_float samples); [eauto | discriminate H].
  - intros [lines ->]. simpl. eauto.
  - intros e H.
    destruct (Untyped.element_lines repr_float samples) as [lines | e'] eqn:E;
      [discriminate H |].
    injection H as <-. exact (element_lines_Err samples e' E).
  - intros dicts. unfold explain_sampling. now rewrite element_lines_dicts.
Qed.

Lemma column_Ok (key : string) (buffer : list sample) (vs : list value) :
  column key buffer = Ok vs → Forall2 (λ s v, s !! key = Some v) buffer vs.
Proof.
  revert vs. induction buffer as [|s rest IH]; simpl; intros vs H.
  - injection H as <-. constructor.
  - unfold subscript in H. destruct (s !! key) as [v|] eqn:Hv; [| discriminate H].
    simpl in H. destruct (column key rest) as [vs'|]; [| discriminate H].
    injection H as <-. constructor; [exact Hv | now apply IH].
Qed.

(** The columns of a buffer of recorded samples are numbers. *)
Lemma column_recorded (buffer : list sample) :
  Forall recorded buffer →
  ∃ ts hs,
    column "temperature" buffer = Ok (Num <$> ts)
    ∧ column "humidity" buffer = Ok (Num <$> hs)
    ∧ length ts = length buffer ∧ length hs = length buffer.
Proof.
  induction 1 as [|s rest (t & h & now & Ht & Hh & _) _ (ts & hs & Hts & Hhs & Lt & Lh)].
  - exists [], []. repeat split.
  - exists (t :: ts), (h :: hs). simpl. unfold subscript.
    rewrite Ht, Hh, Hts, Hhs. simpl. repeat split; congruence.
Qed.

Lemma numbers_Num (xs : list float) : numbers (Num <$> xs) = Ok xs.
Proof. induction xs as [|x xs IH]; csimpl; [reflexivity |]. now rewrite IH. Qed.

(** Folding a choice between the value met and the one kept: what comes
    out is the start or one of the values. *)
Lemma pick_fold (pick : float → float → float) (vs : list value) (m0 m : float) :
  (∀ y k, pick y k = y ∨ pick y k = k) →
  foldl (λ kept v, k ← kept; y ← number v; Ok (pick y k)) (Ok m0) vs = Ok m →
  m = m0 ∨ Num m ∈ vs.
Proof.
  intros Hpick. revert m0. induction vs as [|v vs IH]; simpl; intros m0 H.
  - injection H as <-. now left.
  - destruct v as [y | text]; simpl in H.
    + apply IH in H as [-> | H]; [| right; now right].
      destruct (Hpick y m0) as [-> | ->]; [right; left | now left].
    + exfalso. clear IH. induction vs as [|w ws IHw]; [discriminate H | exact (IHw H)].
Qed.

Lemma pick_fold_Num (pick : float → float → float) (xs : list float) (m0 : float) :
  ∃ m, foldl (λ kept v, k ← kept; y ← number v; Ok (pick y k)) (Ok m0) (Num <$> xs)
       = Ok m.
Proof.
  revert m0. induction xs as [|x xs IH]; intros m0; simpl; [eauto | apply IH].
Qed.

(** When [summarize_samples] gives statistics, the count is the number of
    samples in the buffer, and the least and the greatest temperature it
    reports are temperatures of samples in the buffer. *)
Theorem summary_extremes_recorded (buffer : list sample)
    (n : nat) (avg_t avg_h min_t max_t : float) :
  summarize_samples sum_floats div_len lt buffer
  = Ok (statistics n avg_t avg_h min_t max_t) →
  n = length buffer
  ∧ (∃ s, s ∈ buffer ∧ s !! "temperature" = Some (Num min_t))
  ∧ (∃ s, s ∈ buffer ∧ s !! "temperature" = Some (Num max_t)).
Proof.
  unfold summarize_samples. destruct buffer as [|s0 rest]; [discriminate |].
  destruct (column "temperature" (s0 :: rest)) as [temps|] eqn:Htemps; [| discriminate].
  destruct (column "humidity" (s0 :: rest)) as [hums|] eqn:Hhums; [| discriminate].
  simpl. destruct temps as [|t ts]; [discriminate |].
  destruct hums as [|h hs]; [discriminate |].
  destruct (sum_from sum_floats t ts) as [sum_t|]; [| discriminate]. simpl.
  destruct (sum_from sum_floats h hs) as [sum_h|]; [| discriminate]. simpl.
  destruct (min_from lt t ts) as [mn|] eqn:Hmin; [| discriminate]. simpl.
  destruct (max_from lt t ts) as [mx|] eqn:Hmax; [| discriminate]. simpl.
  intros [= <- _ _ <- <-]. split; [reflexivity |].
  apply column_Ok in Htemps.
  assert (∀ m, Num m ∈ t :: ts →
            ∃ s, s ∈ s0 :: rest ∧ s !! "temperature" = Some (Num m)) as Hfrom.
  { intros m Hm. apply list_elem_of_lookup in Hm as [i Hi].
    destruct (Forall2_lookup_r _ _ _ _ _ Htemps Hi) as (s & Hs & Hv).
    exists s. split; [| exact Hv]. apply list_elem_of_lookup. eauto. }
  unfold min_from in Hmin. unfold max_from in Hmax.
  destruct t as [x | text]; [| discriminate Hmin]. simpl in Hmin, Hmax.
  split; apply Hfrom.
  - apply (pick_fold (λ y k, if lt y k then y else k)) in Hmin as [-> | H];
      [left | now right |]. intros y k. destruct (lt y k); auto.
  - apply (pick_fold (λ y k, if lt k y then y else k)) in Hmax as [-> | H];
      [left | now right |]. intros y k. destruct (lt k y); auto.
Qed.

Lemma sum_from_Num (t : float) (ts : list float) :
  sum_from sum_floats (Num t) (Num <$> ts) = Ok (sum_floats (t :: ts)).
Proof. unfold sum_from. cbn [numbers number]. now rewrite numbers_Num. Qed.

Lemma min_from_Num (t : float) (ts : list float) :
  ∃ m, min_from lt (Num t) (Num <$> ts) = Ok m.
Proof. apply (pick_fold_Num (λ y k, if lt y k then y else k)). Qed.

Lemma max_from_Num (t : float) (ts : list float) :
  ∃ m, max_from lt (Num t) (Num <$> ts) = Ok m.
Proof. apply (pick_fold_Num (λ y k, if lt k y then y else k)). Qed.

(** On a buffer of recorded samples that is not empty, the statistics
    come out. *)
Lemma summarize_recorded (buffer : list sample) :
  Forall recorded buffer → buffer ≠ [] →
  ∃ avg_t avg_h min_t max_t,
    summarize buffer = Ok (statistics (length buffer) avg_t avg_h min_t max_t).
Proof.
  intros Hrec Hne.
  destruct (column_recorded buffer Hrec) as (ts & hs & Hts & Hhs & Lt & Lh).
  unfold summarize_samples. destruct buffer as [|s0 rest]; [contradiction |].
  rewrite Hts, Hhs.
  destruct ts as [|t ts]; [discriminate Lt |]. destruct hs as [|h hs]; [discriminate Lh |].
  change (Num <$> t :: ts) with (Num t :: (Num <$> ts)).
  change (Num <$> h :: hs) with (Num h :: (Num <$> hs)).
  cbn [mbind attempt_bind].
  rewrite !sum_from_Num.
  destruct (min_from_Num t ts) as [mn ->]. destruct (max_from_Num t ts) as [mx ->].
  cbn [mbind attempt_bind]. eauto.
Qed.

(** Whatever calls came before, the tools that read the buffer never
    raise on it: [summarize_samples] gives its dict, and [explain_sampling]
    on what [get_samples] returns gives its text. *)
Theorem session_reads_never_raise (calls : list call) :
  (∃ summary, summarize (session calls) = Ok summary)
  ∧ (∃ text, explain (get_samples (session calls)) = Ok text).
Proof.
  pose proof (session_recorded calls) as Hrec. split.
  - destruct (session calls) as [|s0 rest] eqn:E; [simpl; eauto |].
    destruct (summarize_recorded (s0 :: rest) Hrec) as (a & b & mn & mx & H);
      [discriminate | eauto].
  - unfold get_samples, explain_sampling.
    assert (Forall keyed (session (float := float) calls)) as Hkeyed.
    { eapply Forall_impl; [exact Hrec |].
      intros s (t & h & now & Ht & Hh & Hn). unfold keyed. rewrite Ht, Hh, Hn. eauto. }
    apply sample_lines_Ok in Hkeyed as [lines ->]. simpl. eauto.
Qed.

(** After a clear and then some samples, whatever came before the clear,
    the buffer holds as many dicts as samples were taken; the summary is
    the no-samples error exactly when none was taken, and otherwise its
    count is their number. *)
Theorem summary_counts_since_clear
    (calls : list call) (taken : list (float * float * string)) :
  let buffer :=
    session (calls ++ Clear :: map (λ x, Sample x.1.1 x.1.2 x.2) taken) in
  length (get_samples buffer) = length taken
  ∧ (summarize buffer = Ok no_samples ↔ taken = [])
  ∧ (taken ≠ [] →
     ∃ avg_t avg_h min_t max_t,
       summarize buffer = Ok (statistics (length taken) avg_t avg_h min_t max_t)).
Proof.
  assert (length (session (calls ++ Clear :: map (λ x, Sample x.1.1 x.1.2 x.2) taken))
          = length taken) as Hlen.
  { unfold session. rewrite foldl_app. simpl.
    assert (∀ buffer : list sample,
              length (foldl after buffer (map (λ x, Sample x.1.1 x.1.2 x.2) taken))
              = (length buffer + length taken)%nat) as H.
    { induction taken as [|x taken IH]; intros buffer; simpl; [lia |].
      rewrite IH, length_app. simpl. lia. }
    apply H. }
  pose proof (session_recorded
                (calls ++ Clear :: map (λ x, Sample x.1.1 x.1.2 x.2) taken)) as Hrec.
  cbv zeta. unfold get_samples. split; [exact Hlen |].
  destruct (session (calls ++ Clear :: map (λ x, Sample x.1.1 x.1.2 x.2) taken))
    as [|s0 rest] eqn:E.
  - simpl in Hlen. destruct taken; [| discriminate Hlen].
    split; [now split | intros H; contradiction].
  - destruct (summarize_recorded (s0 :: rest) Hrec) as (a & b & mn & mx & H);
      [discriminate |].
    rewrite H, Hlen. split.
    + split; [discriminate | intros ->; discriminate Hlen].
    + intros _. eauto.
Qed.

End SampleBuffer.

Section SampleBufferExamples.
Import Sampling Sessions.

Lemma summary_extremes_recorded_witness :
  (∃ s, s ∈ session morning ∧ s !! "temperature" = Some (Num 19%N))
  ∧ (∃ s, s ∈ session morning ∧ s !! "temperature" = Some (Num 25%N)).
Proof.
  apply (summary_extremes_recorded sum_whole div_whole N.ltb (session morning)
           3 21%N 45%N 19%N 25%N).
  vm_compute. reflexivity.
Defined.

(** A dict without a time stamp makes [explain_sampling] raise. *)
Example explain_sampling_missing_key :
  explain_sampling Samples.repr_whole
    [{[ "temperature" := Num 21%N; "humidity" := Num 40%N ]}]
  = Err (KeyError "timestamp").
Proof. vm_compute. reflexivity. Qed.

End SampleBufferExamples.

(** ** Sensor analysis ([iot_demo.analyze_sensor_data]) *)

Section Analysis.
Import Sampling.

Context {float : Type}.
Variable truthy : float → bool.
Variable gt_int : float → Z → bool.

Abbreviation analyze := (analyze_sensor_data truthy gt_int).

(** The diagnosis names high temperature exactly when the temperature is
    set, true as a condition and above 35, and high humidity exactly when
    the humidity is set, true as a condition and above 80; it says the
    values are normal exactly when neither holds.  A value that is not
    set is never reported, and the other fields play no part. *)
Theorem analyze_reports (sensor : IotDemo.SensorData (float := float)) :
  let hot := and_greater truthy gt_int (IotDemo.temperature sensor) 35 in
  let humid := and_greater truthy gt_int (IotDemo.humidity sensor) 80 in
  (analyze sensor = "Sensor values are normal." ↔ hot = false ∧ humid = false)
  ∧ contains "High temperature" (analyze sensor) = hot
  ∧ contains "High humidity" (analyze sensor) = humid
  ∧ (IotDemo.temperature sensor = None →
     contains "High temperature" (analyze sensor) = false)
  ∧ (IotDemo.humidity sensor = None →
     contains "High humidity" (analyze sensor) = false)
  ∧ (∀ other,
       IotDemo.temperature other = IotDemo.temperature sensor →
       IotDemo.humidity other = IotDemo.humidity sensor →
       analyze other = analyze sensor).
Proof.
  cbv zeta. unfold analyze_sensor_data.
  split; [| split; [| split; [| split; [| split]]]].
  - destruct (and_greater truthy gt_int (IotDemo.temperature sensor) 35),
      (and_greater truthy gt_int (IotDemo.humidity sensor) 80);
      split; try discriminate; try tauto; intros [H1 H2]; discriminate.
  - now destruct (and_greater truthy gt_int (IotDemo.temperature sensor) 35),
      (and_greater truthy gt_int (IotDemo.humidity sensor) 80).
  - now destruct (and_greater truthy gt_int (IotDemo.temperature sensor) 35),
      (and_greater truthy gt_int (IotDemo.humidity sensor) 80).
  - intros ->. simpl.
    now destruct (and_greater truthy gt_int (IotDemo.humidity sensor) 80).
  - intros ->. simpl.
    now destruct (and_greater truthy gt_int (IotDemo.temperature sensor) 35).
  - intros other -> ->. reflexivity.
Qed.

End Analysis.

Section AnalysisExamples.
Import Sampling Sessions.

Lemma analyze_reports_witness :
  contains "High temperature"
    (analyze_sensor_data truthy_whole gt_whole
       {| IotDemo.temperature := None; IotDemo.humidity := Some 90%N;
          IotDemo.pressure := None; IotDemo.latitude := None;
          IotDemo.longitude := None; IotDemo.timestamp := None |}) = false.
Proof.
  apply (proj1 (proj2 (proj2 (proj2 (analyze_reports truthy_whole gt_whole _))))).
  reflexivity.
Defined.

End AnalysisExamples.

(** ** Presence of the request fields ([publish_sensor_data] of both servers) *)

Section Presence.
Import Validation.

Context {float : Type}.
Variable repr_float : float → string.
Variable repr_str : string → string.

Lemma elem_of_missing_target {S : Type} (a : Arguments S) :
  target a = None → "target" ∈ missing a.
Proof.
  intros H. unfold missing. rewrite H.
  apply elem_of_app. right. apply elem_of_app. left. constructor.
Qed.

Lemma iot_demo_publish_cases (a : Arguments (IotDemo.SensorData (float := float))) :
  (missing a ≠ [] ∧ iot_demo_publish a = ValidationError (missing a))
  ∨ (missing a = []
     ∧ ∃ name data,
         platform a = Some name ∧ sensor_data a = Some data
         ∧ iot_demo_publish a
           = Valid (Return (IotDemo.success ("Published to " +:+ name) data))).
Proof.
  destruct a as [[p|] [t|] k [sd|]];
    first [left; split; [discriminate | reflexivity]
          | right; split; [reflexivity |]; eauto].
Qed.


End Presence.

Section PresenceExamples.
Import Validation Samples.



End PresenceExamples.
